(** * The OpenLLM vLLM gateway (service.py): a shallow embedding

    The development follows service.py top to bottom: the settings read
    from openllm_config.yaml and the module constants resolved from them,
    the chat UI sub-application, the OpenAI route list built in
    [VLLM.__init__], and the two streaming endpoints [generate] and
    [sights].  Library code the service calls (posixpath.join, base64,
    the OpenAI client, PIL, the argument validation of bentoml.api) is
    modelled by its documented behaviour or taken as a section variable. *)

From Stdlib Require Import ZArith NArith Lia Ascii String List.
From Stdlib.Strings Require Import Byte.
From stdpp Require Import base option gmap strings list.

Open Scope string_scope.
Open Scope list_scope.
Open Scope Z_scope.

(** ** Python values and exceptions *)

(** The values yaml.safe_load produces (floats and dates are left out). *)
#[warnings="-register-all"]
Inductive value :=
  | VNull
  | VBool (b : bool)
  | VInt (n : Z)
  | VStr (s : string)
  | VList (l : list value)
  | VDict (d : gmap string value).

Abbreviation dict := (gmap string value).

(** [d.get(k, dflt)] *)
Definition py_get (d : dict) (k : string) (dflt : value) : value :=
  default dflt (d !! k).

(** Truth value testing, as [if x:] does it. *)
Definition truthy (v : value) : bool :=
  match v with
  | VNull => false
  | VBool b => b
  | VInt n => negb (n =? 0)
  | VStr s => negb (String.eqb s "")
  | VList l => match l with [] => false | _ => true end
  | VDict d => negb (bool_decide (d = ∅))
  end.

(** The integer a value denotes; bool is a subclass of int. *)
Definition as_int (v : value) : option Z :=
  match v with
  | VInt n => Some n
  | VBool b => Some (Z.b2z b)
  | _ => None
  end.

Definition as_dict (v : value) : option dict :=
  match v with VDict d => Some d | _ => None end.

Definition as_str (v : value) : option string :=
  match v with VStr s => Some s | _ => None end.

(** [min(v, k)] for an integer [k]: a TypeError ([None]) when [v] is not
    a number. *)
Definition py_min (v : value) (k : Z) : option Z :=
  n ← as_int v; Some (Z.min n k).

(** Exceptions: what [except Exception] tells apart is whether the
    raised object derives from Exception or only from BaseException
    (CancelledError, KeyboardInterrupt, SystemExit, GeneratorExit). *)
Inductive exc_base := DerivesException | BaseExceptionOnly.

Record py_exc := PyExc { exc_base_of : exc_base; exc_name : string }.

Definition isinstance_Exception (e : py_exc) : bool :=
  match exc_base_of e with DerivesException => true | BaseExceptionOnly => false end.

Definition IndexError : py_exc := PyExc DerivesException "IndexError".

(** ** posixpath *)

Definition sep : ascii := "/"%char.

Definition startswith_sep (s : string) : bool :=
  match s with String c _ => Ascii.eqb c sep | EmptyString => false end.

Fixpoint endswith_sep (s : string) : bool :=
  match s with
  | EmptyString => false
  | String c EmptyString => Ascii.eqb c sep
  | String _ s' => endswith_sep s'
  end.

(** [os.path.join(a, b)] on POSIX: an absolute [b] discards [a]. *)
Definition os_path_join (a b : string) : string :=
  if startswith_sep b then b
  else if String.eqb a "" || endswith_sep a then a +:+ b
  else a +:+ String sep b.

(** ** Module constants (service.py lines 11-23, 61) *)

Record module := MkModule {
  STATIC_DIR : string;
  ENGINE_CONFIG : dict;
  SUPPORTS_VISION : value;
  SUPPORTS_EMBEDDINGS : value;
  MAX_TOKENS : Z;
  model_id : string
}.

(** Importing service.py from directory [dirname] with the parsed
    openllm_config.yaml [PARAMETERS]; [None] when the import raises
    (engine_config not a mapping, max_model_len not a number,
    engine_config['model'] missing; the model name is taken to be a
    string).  The settings that configure the image build and the
    bentoml service object are not read by the code below. *)
Definition import_service (dirname : string) (PARAMETERS : dict) : option module :=
  let STATIC_DIR := os_path_join dirname "ui" in
  ENGINE_CONFIG ← as_dict (py_get PARAMETERS "engine_config" (VDict ∅));
  let SUPPORTS_VISION := py_get PARAMETERS "vision" (VBool false) in
  let SUPPORTS_EMBEDDINGS := py_get PARAMETERS "embeddings" (VBool false) in
  MAX_TOKENS ← py_min (py_get ENGINE_CONFIG "max_model_len" (VInt 2048)) 4096;
  model_id ← (ENGINE_CONFIG !! "model") ≫= as_str;
  Some (MkModule STATIC_DIR ENGINE_CONFIG SUPPORTS_VISION SUPPORTS_EMBEDDINGS
                 MAX_TOKENS model_id).

(** ** The chat UI sub-application (service.py lines 26-40) *)

(** What answers a request: [responses.FileResponse(path)] returned by
    a route, the [StaticFiles(directory=...)] application of the mount
    asked for the path below the mount point, one of the documentation
    routes every [fastapi.FastAPI()] has, or no route at all. *)
Inductive ui_response :=
  | FileResponse (path : string)
  | StaticFiles (directory : string) (path : string)
  | OpenAPISchema
  | SwaggerUI
  | SwaggerUIRedirect
  | ReDoc
  | NotFound.

(** The routes [fastapi.FastAPI()] registers when it is constructed
    (line 26), at its default URLs; each takes its one path. *)
Definition fastapi_route (path : string) : option ui_response :=
  if String.eqb path "/openapi.json" then Some OpenAPISchema
  else if String.eqb path "/docs" then Some SwaggerUI
  else if String.eqb path "/docs/oauth2-redirect" then Some SwaggerUIRedirect
  else if String.eqb path "/redoc" then Some ReDoc
  else None.

(** [path.removeprefix(p)] when [path] starts with [p]. *)
Fixpoint strip_prefix (p path : string) : option string :=
  match p, path with
  | EmptyString, _ => Some path
  | String a p', String b path' =>
      if Ascii.eqb a b then strip_prefix p' path' else None
  | String _ _, EmptyString => None
  end.

Section UI.
Variable m : module.
(** [os.path.exists] on the file system the service runs on. *)
Variable os_path_exists : string → bool.

Definition serve_chat_html : ui_response :=
  FileResponse (os_path_join (STATIC_DIR m) "chat.html").

Definition catch_all (full_path : string) : ui_response :=
  let file_path := os_path_join (STATIC_DIR m) full_path in
  if os_path_exists file_path then FileResponse file_path
  else FileResponse (os_path_join (STATIC_DIR m) "chat.html").

(** The routes of ui_app in the order they are registered (line 26,
    then 27, 30 and 35); the router tries them first to last on the
    path of a GET request: the routes of FastAPI itself, then the mount
    at '/static', which takes every path under '/static/', then '/',
    the root route, then '/{full_path:path}', which takes the rest with
    [full_path] the path after the leading slash. *)
Definition ui_app (path : string) : ui_response :=
  match fastapi_route path with
  | Some response => response
  | None =>
      match strip_prefix "/static/" path with
      | Some rest => StaticFiles (STATIC_DIR m) rest
      | None =>
          if String.eqb path "/" then serve_chat_html
          else match strip_prefix "/" path with
               | Some full_path => catch_all full_path
               | None => NotFound
               end
      end
  end.
End UI.

(** *** Which file a path names

    The components of a path, and the directory walk the operating
    system makes over them from the root directory (no symbolic links):
    empty and '.' components stay in place, '..' goes to the parent (the
    root is its own parent), a name goes down. *)
Fixpoint components (s : string) : list string :=
  match s with
  | EmptyString => [""]
  | String c s' =>
      if Ascii.eqb c sep then "" :: components s'
      else match components s' with
           | x :: xs => String c x :: xs
           | [] => [String c ""]
           end
  end.

Definition walk (stack : list string) (name : string) : list string :=
  if String.eqb name "" || String.eqb name "." then stack
  else if String.eqb name ".." then tail stack
  else name :: stack.

(** The resolved location, innermost directory first. *)
Definition resolve (path : string) : list string :=
  fold_left walk (components path) [].

(** [path] names a file inside directory [root]. *)
Definition confined (root path : string) : Prop :=
  resolve root `suffix_of` resolve path.

(** ** The OpenAI routes (service.py lines 69-77) and the API methods
    the class body defines (lines 108-133) *)

Inductive http_method := GET | POST.

Inductive vllm_endpoint :=
  show_available_models | create_chat_completion | create_embedding.

Definition route : Type := string * vllm_endpoint * list http_method.

Definition route_path (r : route) : string := r.1.1.

Definition OPENAI_ENDPOINTS (m : module) : list route :=
  [("/models", show_available_models, [GET]);
   ("/chat/completions", create_chat_completion, [POST])]
  ++ (if truthy (SUPPORTS_EMBEDDINGS m)
      then [("/embeddings", create_embedding, [POST])] else []).

(** [app.add_api_route] appends to the application's routes. *)
Definition add_api_route (app : list route) (r : route) : list route :=
  app ++ [r].

(** openai_api_app once [__init__] has run its loop. *)
Definition openai_api_app (m : module) : list route :=
  fold_left add_api_route (OPENAI_ENDPOINTS m) [].

(** The names bound by [@bentoml.api] in the body of class VLLM. *)
Definition VLLM_apis (m : module) : list string :=
  if negb (truthy (SUPPORTS_EMBEDDINGS m)) then
    "generate" :: (if truthy (SUPPORTS_VISION m) then ["sights"] else [])
  else [].

(** ** base64 (RFC 4648, the standard alphabet with padding) *)

Definition b64_alphabet : string :=
  "ABCDEFGHIJKLMNOPQRSTUVWXYZabcdefghijklmnopqrstuvwxyz0123456789+/".

Definition pad : ascii := "="%char.

Definition b64_char (n : N) : ascii :=
  default pad (String.get (N.to_nat n) b64_alphabet).

Fixpoint index_from (c : ascii) (s : string) (i : N) : option N :=
  match s with
  | EmptyString => None
  | String d s' => if Ascii.eqb c d then Some i else index_from c s' (N.succ i)
  end.

Definition b64_index (c : ascii) : option N := index_from c b64_alphabet 0%N.

Definition sextets (a b c : N) : N * N * N * N :=
  (a / 4, (a mod 4) * 16 + b / 16, (b mod 16) * 4 + c / 64, c mod 64)%N.

(** [base64.b64encode(bs).decode()] *)
Fixpoint b64encode (bs : list byte) : string :=
  match bs with
  | [] => ""
  | [a] =>
      let '(s1, s2, _, _) := sextets (Byte.to_N a) 0 0 in
      String (b64_char s1) (String (b64_char s2) (String pad (String pad "")))
  | [a; b] =>
      let '(s1, s2, s3, _) := sextets (Byte.to_N a) (Byte.to_N b) 0 in
      String (b64_char s1) (String (b64_char s2) (String (b64_char s3) (String pad "")))
  | a :: b :: c :: rest =>
      let '(s1, s2, s3, s4) := sextets (Byte.to_N a) (Byte.to_N b) (Byte.to_N c) in
      String (b64_char s1) (String (b64_char s2) (String (b64_char s3)
        (String (b64_char s4) (b64encode rest))))
  end.

Definition octet1 (s1 s2 : N) : N := (s1 * 4 + s2 / 16)%N.
Definition octet2 (s2 s3 : N) : N := ((s2 mod 16) * 16 + s3 / 4)%N.
Definition octet3 (s3 s4 : N) : N := ((s3 mod 4) * 64 + s4)%N.

(** Reading padded base64 text back into bytes, [None] for text that
    is not padded base64: the inverse the round trip is stated with. *)
Fixpoint b64decode (s : string) : option (list byte) :=
  match s with
  | EmptyString => Some []
  | String c1 (String c2 (String c3 (String c4 rest))) =>
      s1 ← b64_index c1;
      s2 ← b64_index c2;
      if Ascii.eqb c3 pad then
        if Ascii.eqb c4 pad && String.eqb rest "" then
          a ← Byte.of_N (octet1 s1 s2); Some [a]
        else None
      else
        s3 ← b64_index c3;
        if Ascii.eqb c4 pad then
          if String.eqb rest "" then
            a ← Byte.of_N (octet1 s1 s2);
            b ← Byte.of_N (octet2 s2 s3);
            Some [a; b]
          else None
        else
          s4 ← b64_index c4;
          a ← Byte.of_N (octet1 s1 s2);
          b ← Byte.of_N (octet2 s2 s3);
          c ← Byte.of_N (octet3 s3 s4);
          tl ← b64decode rest;
          Some (a :: b :: c :: tl)
  | _ => None
  end.

(** ** Chat completion requests and the completion stream *)

Inductive content_block :=
  | TextBlock (text : string)            (* dict(type='text', text=...) *)
  | ImageUrlBlock (url : string).        (* dict(type='image_url', image_url=dict(url=...)) *)

Record message := Message { role : string; content : list content_block }.

Record request := Request {
  req_model : string;
  req_messages : list message;
  req_stream : bool;
  req_max_tokens : Z
}.

Record delta := Delta { delta_content : option string }.
Record choice := Choice { choice_delta : delta }.
Record chunk := Chunk { choices : list choice }.

(** What iterating the completion gives: a chunk and the rest, the
    end of the stream, or an exception raised by the next read. *)
Inductive stream :=
  | StreamEnd
  | StreamChunk (c : chunk) (rest : stream)
  | StreamRaise (e : py_exc).

(** ** Generator bodies

    A run of an async generator body driven to its end: the strings it
    yielded, the requests it sent to the client, the errors it logged,
    and whether it returned or raised. *)

Inductive ending (A : Type) :=
  | Returned (a : A)
  | Raised (e : py_exc).
Arguments Returned {A} a.
Arguments Raised {A} e.

Record gen (A : Type) := Gen {
  yielded : list string;
  sent : list request;
  logged : list py_exc;
  ending_of : ending A
}.
Arguments Gen {A} _ _ _ _.
Arguments yielded {A} _.
Arguments sent {A} _.
Arguments logged {A} _.
Arguments ending_of {A} _.

#[global] Instance gen_ret : MRet gen := λ A a, Gen [] [] [] (Returned a).

#[global] Instance gen_bind : MBind gen := λ A B f g,
  match ending_of g with
  | Returned a =>
      let k := f a in
      Gen (yielded g ++ yielded k) (sent g ++ sent k) (logged g ++ logged k)
          (ending_of k)
  | Raised e => Gen (yielded g) (sent g) (logged g) (Raised e)
  end.

Definition yield (s : string) : gen unit := Gen [s] [] [] (Returned tt).
Definition raise {A} (e : py_exc) : gen A := Gen [] [] [] (Raised e).
Definition logger_error (e : py_exc) : gen unit := Gen [] [] [e] (Returned tt).
Definition lift {A} (r : ending A) : gen A := Gen [] [] [] r.

(** [try: body / except Exception: handler] *)
Definition try_except_Exception {A} (body : gen A) (handler : py_exc → gen A) : gen A :=
  match ending_of body with
  | Returned _ => body
  | Raised e =>
      if isinstance_Exception e then
        let h := handler e in
        Gen (yielded body ++ yielded h) (sent body ++ sent h)
            (logged body ++ logged h) (ending_of h)
      else body
  end.

(** [async for chunk in completion: body] *)
Fixpoint async_for (completion : stream) (body : chunk → gen unit) : gen unit :=
  match completion with
  | StreamEnd => mret tt
  | StreamChunk c rest => body c ;; async_for rest body
  | StreamRaise e => raise e
  end.

(** [l[0]] *)
Definition item0 {A} (l : list A) : gen A :=
  match l with x :: _ => mret x | [] => raise IndexError end.

(** [x or ''] for an optional string [x] *)
Definition or_empty (x : option string) : string :=
  match x with
  | Some s => if String.eqb s "" then "" else s
  | None => ""
  end.

Definition NOTICE : string :=
  "Internal error found. Check server logs for more information".

Definition DEFAULT_PROMPT : string :=
  "Who are you? Please respond in pirate speak!".

(** ** Argument validation of bentoml.api

    The metadata of [typing.Annotated[int, Ge(128), Le(MAX_TOKENS)]].
    bentoml builds the input model of an API method from its signature;
    a supplied argument that breaks a constraint is answered with a
    validation error and the method body does not run.  A default value
    is taken as it is. *)
Inductive constraint := Ge (k : Z) | Le (k : Z).

Definition satisfies (v : Z) (c : constraint) : bool :=
  match c with Ge k => k <=? v | Le k => v <=? k end.

Definition validate (annotation : list constraint) (arg : option Z) : bool :=
  match arg with
  | Some v => forallb (satisfies v) annotation
  | None => true
  end.

Inductive response :=
  | Rejected
  | Streamed (g : gen unit).

(** The requests that reached the client while answering. *)
Definition dispatched (r : response) : list request :=
  match r with Rejected => [] | Streamed g => sent g end.

(** ** The endpoints (service.py lines 110-163) *)

Section Service.
Variable m : module.
(** [self.client.chat.completions.create]: raises, or gives the
    completion to iterate. *)
Variable client_create : request → ending stream.
(** PIL images, and [image.save(buffered, format='PNG')] followed by
    [buffered.getvalue()]: raises, or gives the PNG bytes. *)
Variable Image : Type.
Variable save_png : Image → ending (list byte).

Definition create (r : request) : gen stream :=
  Gen [] [r] [] (client_create r).

Definition max_tokens_annotation : list constraint :=
  [Ge 128; Le (MAX_TOKENS m)].

Definition generate (prompt : string) (max_tokens : Z) : gen unit :=
  try_except_Exception
    (completion ← create
       (Request (model_id m) [Message "user" [TextBlock prompt]] true max_tokens);
     async_for completion (λ chunk,
       c ← item0 (choices chunk);
       yield (or_empty (delta_content (choice_delta c)))))
    (λ e,
       logger_error e ;;
       yield NOTICE ;;
       mret tt).

Definition sights (prompt : string) (image : option Image) (max_tokens : Z)
  : gen unit :=
  content ← match image with
            | Some img =>
                png ← lift (save_png img);
                let img_str := b64encode png in
                let image_url := "data:image/png;base64," +:+ img_str in
                mret [ImageUrlBlock image_url; TextBlock prompt]
            | None => mret [TextBlock prompt]
            end;
  try_except_Exception
    (completion ← create
       (Request (model_id m) [Message "user" content] true max_tokens);
     async_for completion (λ chunk,
       c ← item0 (choices chunk);
       yield (or_empty (delta_content (choice_delta c)))))
    (λ e,
       logger_error e ;;
       yield NOTICE ;;
       mret tt).

(** A call of the generate endpoint; an argument left out is [None]. *)
Definition api_generate (prompt : option string) (max_tokens : option Z)
  : response :=
  if validate max_tokens_annotation max_tokens then
    Streamed (generate (default DEFAULT_PROMPT prompt)
                       (default (MAX_TOKENS m) max_tokens))
  else Rejected.

Definition api_sights (prompt : option string) (image : option Image)
    (max_tokens : option Z) : response :=
  if validate max_tokens_annotation max_tokens then
    Streamed (sights (default DEFAULT_PROMPT prompt) image
                     (default (MAX_TOKENS m) max_tokens))
  else Rejected.
End Service.

(** ** Sample configurations *)

(** A configuration used to run the statements on: Mistral Large with a
    declared context length of 8192, vision and embeddings not declared. *)
Definition mistral_parameters : dict :=
  {[ "engine_config" :=
       VDict {[ "model" := VStr "mistralai/Mistral-Large-Instruct-2407";
                "max_model_len" := VInt 8192 ]} ]}.

Definition mistral : module :=
  MkModule "/app/src/ui"
           {[ "model" := VStr "mistralai/Mistral-Large-Instruct-2407";
              "max_model_len" := VInt 8192 ]}
           (VBool false) (VBool false) 4096
           "mistralai/Mistral-Large-Instruct-2407".

(** The same model with no declared context length. *)
Definition bare_parameters : dict :=
  {[ "engine_config" :=
       VDict {[ "model" := VStr "mistralai/Mistral-Large-Instruct-2407" ]} ]}.

Definition bare : module :=
  MkModule "/app/src/ui"
           {[ "model" := VStr "mistralai/Mistral-Large-Instruct-2407" ]}
           (VBool false) (VBool false) 2048
           "mistralai/Mistral-Large-Instruct-2407".

(** ** Vocabulary for statements about streams *)

(** The stream that delivers the chunks [cs] and goes on as [tail]. *)
Definition stream_of (cs : list chunk) (tail : stream) : stream :=
  fold_right StreamChunk tail cs.

(** The chunk has a [choices[0]]. *)
Definition has_choice (c : chunk) : Prop := choices c ≠ [].

(** [chunk.choices[0].delta.content or ''] of a chunk that has a choice. *)
Definition chunk_text (c : chunk) : string :=
  match choices c with
  | ch :: _ => or_empty (delta_content (choice_delta ch))
  | [] => ""
  end.

(** The request generate sends, and the one sights sends for a content. *)
Definition chat_request (m : module) (content : list content_block)
    (max_tokens : Z) : request :=
  Request (model_id m) [Message "user" content] true max_tokens.

(** The ways a call of [create] or the reading of its stream fails:
    [create] raises; the stream raises after delivering [cs]; or, after
    [cs], a chunk arrives whose [choices] is empty, so that [choices[0]]
    raises IndexError. *)
Inductive fails_after (client_create : request → ending stream) (req : request)
  : list chunk → py_exc → Prop :=
  | fails_create e :
      client_create req = Raised e →
      fails_after client_create req [] e
  | fails_stream cs e :
      client_create req = Returned (stream_of cs (StreamRaise e)) →
      Forall has_choice cs →
      fails_after client_create req cs e
  | fails_choice cs c rest :
      client_create req = Returned (stream_of cs (StreamChunk c rest)) →
      Forall has_choice cs →
      choices c = [] →
      fails_after client_create req cs IndexError.

(** The data URI sights builds for PNG bytes. *)
Definition png_data_uri (png : list byte) : string :=
  "data:image/png;base64," +:+ b64encode png.

(** ** Sample clients and images *)

Definition text_chunk (s : string) : chunk := Chunk [Choice (Delta (Some s))].
Definition empty_chunk : chunk := Chunk [Choice (Delta None)].

Definition APIConnectionError : py_exc := PyExc DerivesException "APIConnectionError".
Definition OSError : py_exc := PyExc DerivesException "OSError".

(** The engine answers 'p', 'o', an empty delta, 'n', 'g'. *)
Definition pong_client (_ : request) : ending stream :=
  Returned (stream_of [text_chunk "p"; text_chunk "o"; empty_chunk;
                       text_chunk "n"; text_chunk "g"] StreamEnd).

(** After 'p' a chunk with no choices arrives, then 'o'. *)
Definition choiceless_client (_ : request) : ending stream :=
  Returned (stream_of [text_chunk "p"; Chunk []; text_chunk "o"] StreamEnd).

(** The connection drops after 'p', 'o'. *)
Definition dropping_client (_ : request) : ending stream :=
  Returned (stream_of [text_chunk "p"; text_chunk "o"]
              (StreamRaise APIConnectionError)).

(** Images given by their mode and pixel bytes; the PNG writer refuses
    mode 'F' (OSError: cannot write mode F as PNG) and for the other
    modes writes some bytes that stand for the file. *)
Record sample_image := SampleImage { mode : string; pixels : list byte }.

Definition sample_save_png (img : sample_image) : ending (list byte) :=
  if String.eqb (mode img) "F" then Raised OSError
  else Returned (list_byte_of_string "PNG" ++ pixels img).

(** [path] lies under the mount at '/static'. *)
Definition under_static_mount (path : string) : Prop :=
  ∃ rest, path = "/static/" +:+ rest.

(** A file system: the files of the service under /app/src, and
    /etc/passwd.  A path exists when the walk over it ends at one of
    them. *)
Definition sample_files : list (list string) :=
  [resolve "/app/src/service.py";
   resolve "/app/src/openllm_config.yaml";
   resolve "/app/src/ui/chat.html";
   resolve "/app/src/ui/chat.js";
   resolve "/etc/passwd"].

Definition sample_exists (path : string) : bool :=
  bool_decide (resolve path ∈ sample_files).

(** ** The image definition (service.py lines 43-52)

    The image is recorded as the Python version and the calls made on
    it, in order. *)

Inductive build_step :=
  | Run (cmd : value)
  | RequirementsFile (path : string)
  | PythonPackages (packages : list value).

Record python_image := PythonImage {
  python_version : string;
  build_steps : list build_step
}.

Definition image_run (img : python_image) (cmd : value) : python_image :=
  PythonImage (python_version img) (build_steps img ++ [Run cmd]).

Definition image_requirements_file (img : python_image) (path : string)
  : python_image :=
  PythonImage (python_version img) (build_steps img ++ [RequirementsFile path]).

Definition image_python_packages (img : python_image) (packages : list value)
  : python_image :=
  PythonImage (python_version img) (build_steps img ++ [PythonPackages packages]).

(** A YAML sequence as the list [len] measures and [for] walks; [None]
    for the other values (for a number or null Python raises; a string
    or a mapping it would walk too, which is left out here). *)
Definition as_list (v : value) : option (list value) :=
  match v with VList l => Some l | _ => None end.

(** IMAGE after lines 43-52, from the parsed settings. *)
Definition IMAGE (PARAMETERS : dict) : option python_image :=
  IMAGE_CONFIG ← as_dict (py_get PARAMETERS "build" (VDict ∅));
  let IMAGE := PythonImage "3.11" [] in
  PRE_COMMANDS ← as_list (py_get IMAGE_CONFIG "pre" (VList []));
  let IMAGE :=
    if (0 <? length PRE_COMMANDS)%nat
    then fold_left image_run PRE_COMMANDS IMAGE else IMAGE in
  let IMAGE := image_requirements_file IMAGE "requirements.txt" in
  REQUIREMENTS_TXT ← as_list (py_get PARAMETERS "requirements" (VList []));
  let IMAGE :=
    if (0 <? length REQUIREMENTS_TXT)%nat
    then image_python_packages IMAGE REQUIREMENTS_TXT else IMAGE in
  POST_COMMANDS ← as_list (py_get IMAGE_CONFIG "post" (VList []));
  let IMAGE :=
    if (0 <? length POST_COMMANDS)%nat
    then fold_left image_run POST_COMMANDS IMAGE else IMAGE in
  Some IMAGE.

(** ** The server arguments (service.py lines 83-103)

    [args] is an argparse.Namespace: a mapping from attribute names to
    values.  [model] stands for [self.model]. *)

Definition setattr (args : dict) (key : string) (v : value) : dict :=
  <[key := v]> args.

(** The attributes lines 84-101 set, before server_config is applied. *)
Definition default_args (model : value) (model_id : string) : dict :=
  let args : dict := ∅ in
  let args := setattr args "model" model in
  let args := setattr args "disable_log_requests" (VBool true) in
  let args := setattr args "max_log_len" (VInt 1000) in
  let args := setattr args "response_role" (VStr "assistant") in
  let args := setattr args "served_model_name" (VList [VStr model_id]) in
  let args := setattr args "chat_template" VNull in
  let args := setattr args "chat_template_content_format" (VStr "auto") in
  let args := setattr args "lora_modules" VNull in
  let args := setattr args "prompt_adapters" VNull in
  let args := setattr args "request_logger" VNull in
  let args := setattr args "disable_log_stats" (VBool true) in
  let args := setattr args "return_tokens_as_token_ids" (VBool false) in
  let args := setattr args "enable_tool_call_parser" (VBool false) in
  let args := setattr args "enable_auto_tool_choice" (VBool false) in
  let args := setattr args "tool_call_parser" VNull in
  let args := setattr args "enable_prompt_tokens_details" (VBool false) in
  let args := setattr args "enable_reasoning" (VBool false) in
  let args := setattr args "reasoning_parser" VNull in
  args.

(** [for key, value in SERVER_CONFIG.items(): setattr(args, key, value)] *)
Definition apply_server_config (SERVER_CONFIG args : dict) : dict :=
  map_fold (λ key v args, setattr args key v) args SERVER_CONFIG.

(** [args] as [__init__] hands it to the vLLM server; [None] when
    server_config is not a mapping. *)
Definition server_args (PARAMETERS : dict) (model : value) (model_id : string)
  : option dict :=
  SERVER_CONFIG ← as_dict (py_get PARAMETERS "server_config" (VDict ∅));
  Some (apply_server_config SERVER_CONFIG (default_args model model_id)).

(** ** More sample data *)

Definition CancelledError : py_exc := PyExc BaseExceptionOnly "CancelledError".

(** The request is cancelled after 'p', 'o'. *)
Definition cancelled_client (_ : request) : ending stream :=
  Returned (stream_of [text_chunk "p"; text_chunk "o"]
              (StreamRaise CancelledError)).

(** Mistral Large with a context length of 64 declared. *)
Definition tiny_parameters : dict :=
  {[ "engine_config" :=
       VDict {[ "model" := VStr "mistralai/Mistral-Large-Instruct-2407";
                "max_model_len" := VInt 64 ]} ]}.

Definition tiny : module :=
  MkModule "/app/src/ui"
           {[ "model" := VStr "mistralai/Mistral-Large-Instruct-2407";
              "max_model_len" := VInt 64 ]}
           (VBool false) (VBool false) 64
           "mistralai/Mistral-Large-Instruct-2407".

(** Settings with build commands, extra packages and server overrides. *)
Definition build_parameters : dict :=
  {[ "engine_config" :=
       VDict {[ "model" := VStr "mistralai/Mistral-Large-Instruct-2407" ]};
     "build" :=
       VDict {[ "pre" := VList [VStr "apt-get update"; VStr "apt-get install -y git"];
                "post" := VList [VStr "pip check"] ]};
     "requirements" := VList [VStr "vllm"; VStr "openai"];
     "server_config" :=
       VDict {[ "max_log_len" := VInt 50; "enable_lora" := VBool true ]} ]}.

(** * Properties *)

(** ** Resolved constants *)

Lemma import_service_inv dirname PARAMETERS m :
  import_service dirname PARAMETERS = Some m →
  ∃ n : Z,
    as_int (py_get (ENGINE_CONFIG m) "max_model_len" (VInt 2048)) = Some n
    ∧ MAX_TOKENS m = Z.min n 4096
    ∧ STATIC_DIR m = os_path_join dirname "ui"
    ∧ SUPPORTS_VISION m = py_get PARAMETERS "vision" (VBool false)
    ∧ SUPPORTS_EMBEDDINGS m = py_get PARAMETERS "embeddings" (VBool false).
Proof.
  unfold import_service, py_min. intros H.
  destruct (as_dict _) as [ec|] eqn:Hec; simpl in H; [|discriminate].
  destruct (as_int _) as [n|] eqn:Hn; simpl in H; [|discriminate].
  destruct (ec !! "model" ≫= as_str) as [mid|]; simpl in H; [|discriminate].
  injection H as <-. simpl. eauto 10.
Qed.

Example import_mistral : import_service "/app/src" mistral_parameters = Some mistral.
Proof. vm_compute. reflexivity. Qed.

Example import_bare : import_service "/app/src" bare_parameters = Some bare.
Proof. vm_compute. reflexivity. Qed.

(** C7: the resolved MAX_TOKENS is min(declared max_model_len, 4096) when
    the engine configuration declares an integer max_model_len, and it
    never exceeds 4096 whatever the engine configuration. *)
Theorem MAX_TOKENS_min_declared dirname PARAMETERS m :
  import_service dirname PARAMETERS = Some m →
  (∀ declared : Z,
     ENGINE_CONFIG m !! "max_model_len" = Some (VInt declared) →
     MAX_TOKENS m = Z.min declared 4096)
  ∧ MAX_TOKENS m ≤ 4096.
Proof.
  intros (n & Hn & -> & _)%import_service_inv. split; [|lia].
  intros declared Hd. unfold py_get in Hn. rewrite Hd in Hn. simpl in Hn.
  by injection Hn as <-.
Qed.

Lemma MAX_TOKENS_min_declared_witness :
  (∀ declared : Z,
     ENGINE_CONFIG mistral !! "max_model_len" = Some (VInt declared) →
     MAX_TOKENS mistral = Z.min declared 4096)
  ∧ MAX_TOKENS mistral ≤ 4096.
Proof.
  apply (MAX_TOKENS_min_declared "/app/src" mistral_parameters mistral).
  vm_compute. reflexivity.
Defined.



(** ** The route tables *)

Lemma fold_add_api_route (rs app : list route) :
  fold_left add_api_route rs app = app ++ rs.
Proof.
  revert app. induction rs as [|r rs IH]; intros app; simpl.
  - by rewrite app_nil_r.
  - rewrite IH. unfold add_api_route. by rewrite <- app_assoc.
Qed.

Lemma openai_api_app_routes m : openai_api_app m = OPENAI_ENDPOINTS m.
Proof. unfold openai_api_app. by rewrite fold_add_api_route. Qed.

(** C3: the OpenAI route table has the embeddings route exactly when
    SUPPORTS_EMBEDDINGS holds; the class has the sights method exactly when
    SUPPORTS_VISION holds and SUPPORTS_EMBEDDINGS does not; it has the
    generate method exactly when SUPPORTS_EMBEDDINGS does not hold. *)
Theorem routes_follow_capabilities (m : module) :
  ("/embeddings" ∈ map route_path (openai_api_app m)
     ↔ truthy (SUPPORTS_EMBEDDINGS m) = true)
  ∧ ("sights" ∈ VLLM_apis m
     ↔ truthy (SUPPORTS_VISION m) = true ∧ truthy (SUPPORTS_EMBEDDINGS m) = false)
  ∧ ("generate" ∈ VLLM_apis m ↔ truthy (SUPPORTS_EMBEDDINGS m) = false).
Proof.
  rewrite openai_api_app_routes. unfold OPENAI_ENDPOINTS, VLLM_apis.
  destruct (truthy (SUPPORTS_EMBEDDINGS m)), (truthy (SUPPORTS_VISION m));
    simpl; repeat split; intros; try done;
    repeat match goal with
           | H : _ ∧ _ |- _ => destruct H
           | H : _ ∈ _ :: _ |- _ => apply elem_of_cons in H as [?|?]
           | H : _ ∈ [] |- _ => by apply not_elem_of_nil in H
           end; try done;
    repeat (first [ by apply list_elem_of_here | apply list_elem_of_further ]).
Qed.

(** ** Generator bodies *)

Lemma gen_eta {A} (g : gen A) :
  Gen (yielded g) (sent g) (logged g) (ending_of g) = g.
Proof. by destruct g. Qed.

Lemma gen_bind_returned {A B} (f : A → gen B) (g : gen A) a :
  ending_of g = Returned a →
  g ≫= f = Gen (yielded g ++ yielded (f a)) (sent g ++ sent (f a))
               (logged g ++ logged (f a)) (ending_of (f a)).
Proof. intros H. unfold mbind, gen_bind. by rewrite H. Qed.

Lemma gen_bind_raised {A B} (f : A → gen B) (g : gen A) e :
  ending_of g = Raised e →
  g ≫= f = Gen (yielded g) (sent g) (logged g) (Raised e).
Proof. intros H. unfold mbind, gen_bind. by rewrite H. Qed.

Lemma gen_bind_mret {A B} (f : A → gen B) (a : A) : mret a ≫= f = f a.
Proof. unfold mbind, gen_bind, mret, gen_ret. simpl. apply gen_eta. Qed.

Section Relay.
Variable m : module.
Variable client_create : request → ending stream.
Variable Image : Type.
Variable save_png : Image → ending (list byte).

(** The body of the loop both endpoints run over the completion. *)
Local Abbreviation emit :=
  (λ chunk : chunk,
     c ← item0 (choices chunk);
     yield (or_empty (delta_content (choice_delta c)))).

Local Abbreviation handler :=
  (λ e : py_exc, logger_error e ;; yield NOTICE ;; mret tt).

Local Abbreviation relay req :=
  (try_except_Exception
     (completion ← create client_create req; async_for completion emit)
     handler).

Lemma emit_has_choice (c : chunk) :
  has_choice c → emit c = yield (chunk_text c).
Proof.
  unfold has_choice, chunk_text. cbv beta. destruct (choices c) as [|ch chs]; [done|].
  intros _. unfold item0. by rewrite gen_bind_mret.
Qed.

Lemma emit_no_choice (c : chunk) :
  choices c = [] → emit c = raise IndexError.
Proof. intros H. cbv beta. rewrite H. reflexivity. Qed.

(** The loop emits one string per chunk, in order, and goes on with
    the rest of the stream. *)
Lemma async_for_stream_of (cs : list chunk) (tail : stream) :
  Forall has_choice cs →
  async_for (stream_of cs tail) emit
  = let t := async_for tail emit in
    Gen (map chunk_text cs ++ yielded t) (sent t) (logged t) (ending_of t).
Proof.
  induction 1 as [|c cs Hc Hcs IH]; simpl.
  - by rewrite gen_eta.
  - rewrite (emit_has_choice c Hc), IH. reflexivity.
Qed.

Lemma relay_create_raises req e :
  client_create req = Raised e →
  isinstance_Exception e = true →
  relay req = Gen [NOTICE] [req] [e] (Returned tt).
Proof.
  intros Hc He. unfold try_except_Exception.
  rewrite (gen_bind_raised _ _ e) by (simpl; exact Hc).
  simpl. rewrite He. reflexivity.
Qed.

Lemma relay_create_escapes req e :
  client_create req = Raised e →
  isinstance_Exception e = false →
  relay req = Gen [] [req] [] (Raised e).
Proof.
  intros Hc He. unfold try_except_Exception.
  rewrite (gen_bind_raised _ _ e) by (simpl; exact Hc).
  simpl. rewrite He. reflexivity.
Qed.

(** The try block over a stream that delivers [cs] first. *)
Lemma relay_try_block req cs tail :
  client_create req = Returned (stream_of cs tail) →
  Forall has_choice cs →
  (completion ← create client_create req; async_for completion emit)
  = let t := async_for tail emit in
    Gen (map chunk_text cs ++ yielded t) (req :: sent t) (logged t) (ending_of t).
Proof.
  intros Hc Hcs.
  rewrite (gen_bind_returned _ _ (stream_of cs tail)) by (simpl; exact Hc).
  rewrite async_for_stream_of by exact Hcs. reflexivity.
Qed.

Lemma relay_stream_ends req cs :
  client_create req = Returned (stream_of cs StreamEnd) →
  Forall has_choice cs →
  relay req = Gen (map chunk_text cs) [req] [] (Returned tt).
Proof.
  intros Hc Hcs. unfold try_except_Exception.
  rewrite (relay_try_block req cs StreamEnd Hc Hcs). simpl.
  by rewrite app_nil_r.
Qed.

Lemma relay_stream_raises req cs e :
  client_create req = Returned (stream_of cs (StreamRaise e)) →
  Forall has_choice cs →
  isinstance_Exception e = true →
  relay req = Gen (map chunk_text cs ++ [NOTICE]) [req] [e] (Returned tt).
Proof.
  intros Hc Hcs He. unfold try_except_Exception.
  rewrite (relay_try_block req cs _ Hc Hcs). simpl.
  rewrite He, app_nil_r. reflexivity.
Qed.

Lemma relay_stream_no_choice req cs c rest :
  client_create req = Returned (stream_of cs (StreamChunk c rest)) →
  Forall has_choice cs →
  choices c = [] →
  relay req = Gen (map chunk_text cs ++ [NOTICE]) [req] [IndexError] (Returned tt).
Proof.
  intros Hc Hcs Hno. unfold try_except_Exception.
  rewrite (relay_try_block req cs _ Hc Hcs).
  cbn [async_for]. rewrite (emit_no_choice c Hno). simpl.
  rewrite app_nil_r. reflexivity.
Qed.

(** Whatever follows, the strings of the chunks delivered so far come
    first, one per chunk and in order. *)
Lemma relay_stream_prefix req cs tail :
  client_create req = Returned (stream_of cs tail) →
  Forall has_choice cs →
  ∃ rest, yielded (relay req) = map chunk_text cs ++ rest.
Proof.
  intros Hc Hcs. unfold try_except_Exception.
  rewrite (relay_try_block req cs tail Hc Hcs). cbv zeta.
  destruct (async_for tail emit) as [ys ss ls [[]|e]]; simpl.
  - eauto.
  - destruct (isinstance_Exception e); simpl.
    + rewrite <- app_assoc. eauto.
    + eauto.
Qed.

Lemma generate_relay prompt max_tokens :
  generate m client_create prompt max_tokens
  = relay (chat_request m [TextBlock prompt] max_tokens).
Proof. reflexivity. Qed.

Lemma sights_relay_text prompt max_tokens :
  sights m client_create Image save_png prompt None max_tokens
  = relay (chat_request m [TextBlock prompt] max_tokens).
Proof. unfold sights. by rewrite gen_bind_mret. Qed.

Lemma sights_relay_image prompt img png max_tokens :
  save_png img = Returned png →
  sights m client_create Image save_png prompt (Some img) max_tokens
  = relay (chat_request m
             [ImageUrlBlock ("data:image/png;base64," +:+ b64encode png);
              TextBlock prompt] max_tokens).
Proof.
  intros Hs. unfold sights. rewrite Hs.
  change (lift (Returned png)) with (mret (M:=gen) png).
  by rewrite !gen_bind_mret.
Qed.

Lemma sights_save_raises prompt img e max_tokens :
  save_png img = Raised e →
  sights m client_create Image save_png prompt (Some img) max_tokens
  = Gen [] [] [] (Raised e).
Proof. intros Hs. unfold sights. rewrite Hs. reflexivity. Qed.

Lemma async_for_sent (s : stream) : sent (async_for s emit) = [].
Proof.
  induction s as [|c rest IH|e]; [reflexivity| |reflexivity].
  cbn [async_for].
  assert (choices c = [] ∨ has_choice c) as [Hc|Hc]
    by (unfold has_choice; destruct (choices c); [by left | by right]).
  - by rewrite (emit_no_choice c Hc).
  - rewrite (emit_has_choice c Hc).
    unfold mbind, gen_bind. simpl. exact IH.
Qed.

(** The try block sends its one request whatever the client does. *)
Lemma relay_sent req : sent (relay req) = [req].
Proof.
  unfold try_except_Exception.
  destruct (client_create req) as [s|e] eqn:Hc.
  - rewrite (gen_bind_returned _ _ s) by (simpl; exact Hc). simpl.
    rewrite async_for_sent.
    destruct (ending_of (async_for s _)) as [[]|e]; simpl; [done|].
    destruct (isinstance_Exception e); simpl; by rewrite ?async_for_sent.
  - rewrite (gen_bind_raised _ _ e) by (simpl; exact Hc). simpl.
    destruct (isinstance_Exception e); reflexivity.
Qed.

(** No Exception leaves the try statement, whatever the client does. *)
Lemma relay_raises_no_Exception req e :
  ending_of (relay req) = Raised e → isinstance_Exception e = false.
Proof.
  unfold try_except_Exception. set (body := create _ _ ≫= _).
  destruct (ending_of body) as [[]|e'] eqn:Hbody; [by rewrite Hbody|].
  destruct (isinstance_Exception e') eqn:He'; [done|].
  rewrite Hbody. by intros [= <-].
Qed.

Lemma generate_sent prompt max_tokens :
  sent (generate m client_create prompt max_tokens)
  = [chat_request m [TextBlock prompt] max_tokens].
Proof. rewrite generate_relay. apply relay_sent. Qed.

End Relay.

(** ** base64 *)

Lemma b64_char_index (n : N) :
  (n < 64)%N → b64_index (b64_char n) = Some n ∧ Ascii.eqb (b64_char n) pad = false.
Proof.
  intros Hn. rewrite <- (N2Nat.id n).
  assert (Hk : (N.to_nat n < 64)%nat) by lia.
  clear Hn. generalize dependent (N.to_nat n). clear n. intros k Hk.
  do 64 (destruct k as [|k]; [vm_compute; done|]). lia.
Qed.

Lemma sextets_spec (a b c : N) :
  (a < 256)%N → (b < 256)%N → (c < 256)%N →
  let '(s1, s2, s3, s4) := sextets a b c in
  (s1 < 64 ∧ s2 < 64 ∧ s3 < 64 ∧ s4 < 64)%N
  ∧ octet1 s1 s2 = a ∧ octet2 s2 s3 = b ∧ octet3 s3 s4 = c.
Proof.
  intros Ha Hb Hc. unfold sextets, octet1, octet2, octet3.
  repeat split; zify; Z.to_euclidean_division_equations; lia.
Qed.

Lemma byte_lt_256 (b : byte) : (Byte.to_N b < 256)%N.
Proof. pose proof (Byte.to_N_bounded b). lia. Qed.

Lemma triple_induction {A} (P : list A → Prop) :
  P [] → (∀ a, P [a]) → (∀ a b, P [a; b]) →
  (∀ a b c l, P l → P (a :: b :: c :: l)) →
  ∀ l, P l.
Proof.
  intros H0 H1 H2 H3 l.
  cut (P l ∧ (∀ a, P (a :: l)) ∧ (∀ a b, P (a :: b :: l))); [tauto|].
  induction l as [|x l (IH0 & IH1 & IH2)]; [by auto|].
  split; [apply IH1|]. split; [intros a; apply IH2|].
  intros a b. by apply H3.
Qed.

Lemma b64decode_block (a b c : byte) (rest : string) :
  let '(s1, s2, s3, s4) := sextets (Byte.to_N a) (Byte.to_N b) (Byte.to_N c) in
  b64decode (String (b64_char s1) (String (b64_char s2) (String (b64_char s3)
               (String (b64_char s4) rest))))
  = tl ← b64decode rest; Some (a :: b :: c :: tl).
Proof.
  pose proof (sextets_spec (Byte.to_N a) (Byte.to_N b) (Byte.to_N c)
                (byte_lt_256 a) (byte_lt_256 b) (byte_lt_256 c)) as H.
  destruct (sextets _ _ _) as [[[s1 s2] s3] s4].
  destruct H as ((L1 & L2 & L3 & L4) & E1 & E2 & E3).
  destruct (b64_char_index s1 L1) as [I1 _], (b64_char_index s2 L2) as [I2 _],
    (b64_char_index s3 L3) as [I3 P3], (b64_char_index s4 L4) as [I4 P4].
  cbn [b64decode]. rewrite I1, I2, P3, I3, P4, I4. cbn [mbind option_bind].
  rewrite E1, E2, E3, !Byte.of_to_N. reflexivity.
Qed.

(** Decoding what [b64encode] wrote gives the bytes back. *)
Lemma b64decode_b64encode (bs : list byte) : b64decode (b64encode bs) = Some bs.
Proof.
  induction bs as [|a|a b|a b c bs IH] using triple_induction.
  - reflexivity.
  - cbn [b64encode].
    pose proof (sextets_spec (Byte.to_N a) 0 0 (byte_lt_256 a)
                  ltac:(lia) ltac:(lia)) as H.
    destruct (sextets _ _ _) as [[[s1 s2] s3] s4].
    destruct H as ((L1 & L2 & _) & E1 & _).
    destruct (b64_char_index s1 L1) as [I1 _], (b64_char_index s2 L2) as [I2 _].
    cbn [b64decode]. rewrite I1, I2. cbn.
    rewrite E1, Byte.of_to_N. reflexivity.
  - cbn [b64encode].
    pose proof (sextets_spec (Byte.to_N a) (Byte.to_N b) 0 (byte_lt_256 a)
                  (byte_lt_256 b) ltac:(lia)) as H.
    destruct (sextets _ _ _) as [[[s1 s2] s3] s4].
    destruct H as ((L1 & L2 & L3 & _) & E1 & E2 & _).
    destruct (b64_char_index s1 L1) as [I1 _], (b64_char_index s2 L2) as [I2 _],
      (b64_char_index s3 L3) as [I3 P3].
    cbn [b64decode]. rewrite I1, I2, P3, I3. cbn.
    rewrite E1, E2, !Byte.of_to_N. reflexivity.
  - cbn [b64encode]. pose proof (b64decode_block a b c (b64encode bs)) as H.
    destruct (sextets _ _ _) as [[[s1 s2] s3] s4]. rewrite H, IH. reflexivity.
Qed.

Example b64encode_Man : b64encode (list_byte_of_string "Man") = "TWFu".
Proof. reflexivity. Qed.

Example b64encode_Ma : b64encode (list_byte_of_string "Ma") = "TWE=".
Proof. reflexivity. Qed.

Example b64encode_M : b64encode (list_byte_of_string "M") = "TQ==".
Proof. reflexivity. Qed.

(** ** The endpoints *)

Lemma validate_in_bounds m (v : Z) :
  validate (max_tokens_annotation m) (Some v) = true ↔ 128 ≤ v ≤ MAX_TOKENS m.
Proof.
  unfold max_tokens_annotation. simpl.
  rewrite andb_true_r, andb_true_iff, !Z.leb_le. reflexivity.
Qed.

Lemma or_empty_default (x : option string) : or_empty x = default "" x.
Proof.
  destruct x as [s|]; [|reflexivity]. simpl.
  destruct (String.eqb_spec s ""); congruence.
Qed.

(** Every stream delivers some chunks that have a choice and then ends,
    raises, or delivers a chunk with no choice. *)
Lemma stream_shape (s : stream) :
  ∃ cs, Forall has_choice cs
        ∧ (s = stream_of cs StreamEnd
           ∨ (∃ e, s = stream_of cs (StreamRaise e))
           ∨ (∃ c rest, choices c = [] ∧ s = stream_of cs (StreamChunk c rest))).
Proof.
  induction s as [|c rest (cs & Hcs & IH)|e].
  - exists []. split; [constructor|]. by left.
  - destruct (choices c) as [|ch chs] eqn:Hc.
    + exists []. split; [constructor|]. right. right. by exists c, rest.
    + exists (c :: cs). split.
      * constructor; [|done]. unfold has_choice. by rewrite Hc.
      * destruct IH as [->|[[e ->]|(c' & rest' & ? & ->)]]; simpl; eauto 8.
  - exists []. split; [constructor|]. right. left. by exists e.
Qed.

(** C1 (as the code has it): in a call of generate or sights with valid
    arguments, when creating the completion or reading its stream (the
    body of the try statement) fails with an Exception after the chunks
    [cs], the endpoint yields the texts of [cs], then the notice once as
    the last element, logs the error, and returns normally.  For sights
    with an image this is said of the calls in which the image was
    written, which happens before the try statement. *)
Theorem failure_is_contained m client Image save_png
    (prompt : option string) (max_tokens : option Z) cs e :
  validate (max_tokens_annotation m) max_tokens = true →
  isinstance_Exception e = true →
  let p := default DEFAULT_PROMPT prompt in
  let mt := default (MAX_TOKENS m) max_tokens in
  let contained req :=
    Streamed (Gen (map chunk_text cs ++ [NOTICE]) [req] [e] (Returned tt)) in
  (fails_after client (chat_request m [TextBlock p] mt) cs e →
     api_generate m client prompt max_tokens
       = contained (chat_request m [TextBlock p] mt)
     ∧ api_sights m client Image save_png prompt None max_tokens
       = contained (chat_request m [TextBlock p] mt))
  ∧ (∀ img png,
       save_png img = Returned png →
       fails_after client
         (chat_request m [ImageUrlBlock (png_data_uri png); TextBlock p] mt) cs e →
       api_sights m client Image save_png prompt (Some img) max_tokens
       = contained (chat_request m [ImageUrlBlock (png_data_uri png); TextBlock p] mt)).
Proof.
  intros Hv He p mt contained. subst p mt contained.
  unfold api_generate, api_sights. rewrite Hv.
  assert (Hrelay : ∀ req, fails_after client req cs e →
            try_except_Exception
              (completion ← create client req;
               async_for completion (λ chunk,
                 c ← item0 (choices chunk);
                 yield (or_empty (delta_content (choice_delta c)))))
              (λ e, logger_error e ;; yield NOTICE ;; mret tt)
            = Gen (map chunk_text cs ++ [NOTICE]) [req] [e] (Returned tt)).
  { intros req Hf. revert He.
    destruct Hf as [e' Hc|cs' e' Hc Hcs|cs' c rest Hc Hcs Hno]; intros He.
    - by apply relay_create_raises.
    - by apply relay_stream_raises.
    - by apply (relay_stream_no_choice client req cs' c rest). }
  split.
  - intros Hf. split.
    + rewrite generate_relay. f_equal. by apply Hrelay.
    + rewrite sights_relay_text. f_equal. by apply Hrelay.
  - intros img png Hs Hf.
    rewrite (sights_relay_image m client Image save_png _ img png _ Hs).
    f_equal. by apply Hrelay.
Qed.

Lemma failure_is_contained_witness :
  validate (max_tokens_annotation mistral) (Some 128) = true
  ∧ isinstance_Exception APIConnectionError = true
  ∧ api_generate mistral dropping_client (Some "ping") (Some 128)
    = Streamed (Gen ["p"; "o"; NOTICE] [chat_request mistral [TextBlock "ping"] 128]
                    [APIConnectionError] (Returned tt)).
Proof.
  split; [reflexivity|]. split; [reflexivity|].
  refine (proj1 (proj1 (failure_is_contained mistral dropping_client
            sample_image sample_save_png (Some "ping") (Some 128)
            [text_chunk "p"; text_chunk "o"] APIConnectionError _ _) _)).
  - reflexivity.
  - reflexivity.
  - apply fails_stream; [reflexivity|]. repeat constructor; discriminate.
Defined.

(** C1 as stated fails for sights: writing the image is part of building
    the request and stands before the try statement; when it raises,
    nothing is yielded, the notice included, and the exception leaves
    the endpoint. *)
Lemma sights_construction_failure_escapes :
  validate (max_tokens_annotation mistral) None = true
  ∧ sample_save_png (SampleImage "F" [x00]) = Raised OSError
  ∧ isinstance_Exception OSError = true
  ∧ api_sights mistral dropping_client sample_image sample_save_png
      None (Some (SampleImage "F" [x00])) None
    = Streamed (Gen [] [] [] (Raised OSError))
  ∧ ¬ (∃ g, api_sights mistral dropping_client sample_image sample_save_png
              None (Some (SampleImage "F" [x00])) None = Streamed g
            ∧ last (yielded g) = Some NOTICE
            ∧ ending_of g = Returned tt).
Proof.
  repeat split; try (vm_compute; reflexivity).
  intros (g & Hg & Hy & _). vm_compute in Hg. injection Hg as <-.
  discriminate Hy.
Qed.

(** C8 (as the code has it): the chunks read from the completion that
    have a first choice are re-emitted one string per chunk, in the
    order received, whatever the stream does next; a chunk whose delta
    has no content gives the empty string, which is emitted like any
    other; when the stream ends, these strings are the whole output.
    A chunk whose choices are empty is not re-emitted: reading its
    first choice raises IndexError, so the notice follows the strings
    emitted so far and the output ends there. *)
Theorem chunks_are_relayed m client Image save_png prompt max_tokens cs tail :
  Forall has_choice cs →
  let relays (g : gen unit) (req : request) :=
    (∃ rest, yielded g = map chunk_text cs ++ rest)
    ∧ (tail = StreamEnd → g = Gen (map chunk_text cs) [req] [] (Returned tt)) in
  (client (chat_request m [TextBlock prompt] max_tokens)
     = Returned (stream_of cs tail) →
   relays (generate m client prompt max_tokens)
          (chat_request m [TextBlock prompt] max_tokens)
   ∧ relays (sights m client Image save_png prompt None max_tokens)
            (chat_request m [TextBlock prompt] max_tokens))
  ∧ (∀ img png,
       save_png img = Returned png →
       client (chat_request m [ImageUrlBlock (png_data_uri png); TextBlock prompt]
                 max_tokens)
         = Returned (stream_of cs tail) →
       relays (sights m client Image save_png prompt (Some img) max_tokens)
              (chat_request m [ImageUrlBlock (png_data_uri png); TextBlock prompt]
                 max_tokens))
  ∧ (∀ x chs, chunk_text (Chunk (Choice (Delta x) :: chs)) = default "" x)
  ∧ (∀ c rest,
       choices c = [] →
       client (chat_request m [TextBlock prompt] max_tokens)
         = Returned (stream_of cs (StreamChunk c rest)) →
       generate m client prompt max_tokens
         = Gen (map chunk_text cs ++ [NOTICE])
               [chat_request m [TextBlock prompt] max_tokens] [IndexError]
               (Returned tt)
       ∧ sights m client Image save_png prompt None max_tokens
         = Gen (map chunk_text cs ++ [NOTICE])
               [chat_request m [TextBlock prompt] max_tokens] [IndexError]
               (Returned tt)).
Proof.
  intros Hcs relays. subst relays. cbv beta.
  split; [|split; [|split]].
  - intros Hc. rewrite generate_relay, sights_relay_text.
    split; (split; [by apply (relay_stream_prefix client _ cs tail)|]);
      intros ->; by apply relay_stream_ends.
  - intros img png Hs Hc. rewrite (sights_relay_image _ _ _ _ _ _ png _ Hs).
    split; [by apply (relay_stream_prefix client _ cs tail)|].
    intros ->. by apply relay_stream_ends.
  - intros x chs. unfold chunk_text. simpl. apply or_empty_default.
  - intros c rest Hno Hc. rewrite generate_relay, sights_relay_text.
    split; by apply (relay_stream_no_choice client _ cs c rest).
Qed.

Lemma chunks_are_relayed_witness :
  Forall has_choice [text_chunk "p"; text_chunk "o"; empty_chunk;
                     text_chunk "n"; text_chunk "g"]
  ∧ generate mistral pong_client "ping" 128
    = Gen ["p"; "o"; ""; "n"; "g"] [chat_request mistral [TextBlock "ping"] 128]
          [] (Returned tt).
Proof.
  assert (H : Forall has_choice [text_chunk "p"; text_chunk "o"; empty_chunk;
                                 text_chunk "n"; text_chunk "g"])
    by (repeat constructor; discriminate).
  split; [exact H|].
  refine (proj2 (proj1 (proj1 (chunks_are_relayed mistral pong_client
            sample_image sample_save_png "ping" 128 _ StreamEnd H) _)) _);
    reflexivity.
Defined.

(** C8 as stated fails: a chunk with no choices is not re-emitted as the
    empty string; the notice takes its place and the chunks after it
    are not read. *)
Lemma choiceless_chunk_ends_relay :
  generate mistral choiceless_client "ping" 128
  = Gen ["p"; NOTICE] [chat_request mistral [TextBlock "ping"] 128]
        [IndexError] (Returned tt)
  ∧ yielded (generate mistral choiceless_client "ping" 128) ≠ ["p"; ""; "o"].
Proof.
  split; [vm_compute; reflexivity|].
  intros H. vm_compute in H. discriminate H.
Qed.




(** C4: a valid call of sights with an image whose PNG bytes are [png]
    sends one request whose single user message has the image block
    first and the text block second; the image URL is
    'data:image/png;base64,' followed by the base64 text of [png], and
    decoding that text gives [png] back. *)
Theorem sights_sends_image_data_uri m client Image save_png
    (prompt : option string) img png (max_tokens : option Z) :
  validate (max_tokens_annotation m) max_tokens = true →
  save_png img = Returned png →
  dispatched (api_sights m client Image save_png prompt (Some img) max_tokens)
  = [Request (model_id m)
       [Message "user"
          [ImageUrlBlock ("data:image/png;base64," +:+ b64encode png);
           TextBlock (default DEFAULT_PROMPT prompt)]]
       true (default (MAX_TOKENS m) max_tokens)]
  ∧ b64decode (b64encode png) = Some png.
Proof.
  intros Hv Hs. split; [|apply b64decode_b64encode].
  unfold api_sights. rewrite Hv. simpl.
  rewrite (sights_relay_image _ _ _ _ _ _ png _ Hs). apply relay_sent.
Qed.

Lemma sights_sends_image_data_uri_witness :
  validate (max_tokens_annotation mistral) (Some 256) = true
  ∧ sample_save_png (SampleImage "RGB" [x00; xff; x10]) 
    = Returned (list_byte_of_string "PNG" ++ [x00; xff; x10])
  ∧ dispatched (api_sights mistral pong_client sample_image sample_save_png
                  (Some "what is this?") (Some (SampleImage "RGB" [x00; xff; x10]))
                  (Some 256))
    = [Request (model_id mistral)
         [Message "user"
            [ImageUrlBlock "data:image/png;base64,UE5HAP8Q";
             TextBlock "what is this?"]]
         true 256]
  ∧ b64decode "UE5HAP8Q" = Some (list_byte_of_string "PNG" ++ [x00; xff; x10]).
Proof.
  split; [reflexivity|]. split; [reflexivity|].
  exact (sights_sends_image_data_uri mistral pong_client sample_image
           sample_save_png (Some "what is this?")
           (SampleImage "RGB" [x00; xff; x10])
           (list_byte_of_string "PNG" ++ [x00; xff; x10]) (Some 256)
           eq_refl eq_refl).
Defined.

(** C5 (as the code has it): when writing the supplied image as PNG
    fails in a valid call of sights, the exception leaves the endpoint:
    the image is written before the try block is entered, so nothing is
    yielded (no notice), nothing is logged by the endpoint, and no
    request is sent. *)
Theorem sights_save_failure_escapes m client Image save_png
    (prompt : option string) img e (max_tokens : option Z) :
  validate (max_tokens_annotation m) max_tokens = true →
  save_png img = Raised e →
  api_sights m client Image save_png prompt (Some img) max_tokens
  = Streamed (Gen [] [] [] (Raised e)).
Proof.
  intros Hv Hs. unfold api_sights. rewrite Hv.
  by rewrite (sights_save_raises _ _ _ _ _ _ e _ Hs).
Qed.

Lemma sights_save_failure_escapes_witness :
  validate (max_tokens_annotation mistral) (Some 256) = true
  ∧ sample_save_png (SampleImage "F" []) = Raised OSError
  ∧ api_sights mistral pong_client sample_image sample_save_png
      (Some "what is this?") (Some (SampleImage "F" [])) (Some 256)
    = Streamed (Gen [] [] [] (Raised OSError)).
Proof.
  split; [reflexivity|]. split; [reflexivity|].
  exact (sights_save_failure_escapes mistral pong_client sample_image
           sample_save_png (Some "what is this?") (SampleImage "F" []) OSError
           (Some 256) eq_refl eq_refl).
Defined.

(** C5 as stated fails: for an image the PNG writer refuses, sights does
    not answer with the notice and a clean end. *)
Lemma sights_save_failure_not_contained :
  sample_save_png (SampleImage "F" []) = Raised OSError
  ∧ ¬ (∃ g, api_sights mistral pong_client sample_image sample_save_png
              (Some "what is this?") (Some (SampleImage "F" [])) (Some 256)
            = Streamed g
            ∧ yielded g = [NOTICE]
            ∧ ending_of g = Returned tt).
Proof.
  split; [reflexivity|]. intros (g & Hg & Hy & _).
  vm_compute in Hg. injection Hg as <-. discriminate Hy.
Qed.

(** ** Paths *)

Lemma append_cons (x : ascii) (a b : string) :
  String x a +:+ b = String x (a +:+ b).
Proof. reflexivity. Qed.

Lemma append_nil (b : string) : "" +:+ b = b.
Proof. reflexivity. Qed.

Lemma append_assoc (a b c : string) : (a +:+ b) +:+ c = a +:+ (b +:+ c).
Proof.
  induction a as [|x a IH]; [reflexivity|].
  by rewrite !append_cons, IH.
Qed.

Lemma components_nonempty (s : string) : components s ≠ [].
Proof.
  induction s as [|c s IH]; simpl; [done|].
  destruct (Ascii.eqb c sep); [done|]. by destruct (components s).
Qed.

Lemma components_append_sep (a b : string) :
  components (a +:+ String sep b) = components a ++ components b.
Proof.
  induction a as [|c a IH].
  - reflexivity.
  - rewrite append_cons. cbn [components]. rewrite IH.
    destruct (Ascii.eqb c sep); [done|].
    pose proof (components_nonempty a). by destruct (components a).
Qed.

Lemma endswith_sep_inv (a : string) :
  endswith_sep a = true → ∃ a', a = a' +:+ String sep "".
Proof.
  induction a as [|c a IH]; [done|]. simpl. destruct a as [|d a].
  - intros ->%Ascii.eqb_eq. by exists "".
  - intros [a' ->]%IH. by exists (String c a').
Qed.

Lemma fold_walk_app (cs ds st : list string) :
  fold_left walk (cs ++ ds) st = fold_left walk ds (fold_left walk cs st).
Proof. apply fold_left_app. Qed.

(** Joining a relative path continues the walk from the directory. *)
Lemma resolve_join (root p : string) :
  startswith_sep p = false →
  resolve (os_path_join root p) = fold_left walk (components p) (resolve root).
Proof.
  intros Hp. unfold os_path_join, resolve. rewrite Hp.
  destruct (String.eqb_spec root "") as [->|Hroot]; cbn [orb].
  - reflexivity.
  - destruct (endswith_sep root) eqn:He.
    + apply endswith_sep_inv in He as [a ->].
      rewrite append_assoc, append_cons, append_nil.
      rewrite !components_append_sep, !fold_walk_app. reflexivity.
    + by rewrite components_append_sep, fold_walk_app.
Qed.

Lemma walk_down (cs st : list string) :
  ".." ∉ cs → st `suffix_of` fold_left walk cs st.
Proof.
  revert st. induction cs as [|c cs IH]; intros st Hcs; simpl; [done|].
  apply not_elem_of_cons in Hcs as [Hc Hcs].
  etrans; [|by apply IH]. unfold walk.
  destruct (_ || _); [done|].
  destruct (String.eqb_spec c ".."); [congruence|]. by apply suffix_cons_r.
Qed.

Lemma strip_prefix_spec (p s r : string) :
  strip_prefix p s = Some r ↔ s = p +:+ r.
Proof.
  revert s. induction p as [|a p IH]; intros s;
    rewrite ?append_cons, ?append_nil; cbn [strip_prefix].
  - split; [by intros [= ->]|by intros ->].
  - destruct s as [|b s]; [done|].
    destruct (Ascii.eqb_spec a b) as [->|Hab].
    + rewrite IH. split; [by intros ->|by intros [= ->]].
    + split; [done|]. intros [= ? ?]. congruence.
Qed.

Lemma strip_prefix_static (path : string) :
  ¬ under_static_mount path → strip_prefix "/static/" path = None.
Proof.
  intros Hn. destruct (strip_prefix "/static/" path) as [rest|] eqn:H; [|done].
  destruct Hn. exists rest. by apply strip_prefix_spec.
Qed.

(** C6 (as the code has it): for a request path that is relative and has
    no '..' component, the path the catch-all route checks for
    existence, and any file it serves, lies under STATIC_DIR. *)
Theorem catch_all_confined m os_path_exists (full_path : string) :
  startswith_sep full_path = false →
  ".." ∉ components full_path →
  confined (STATIC_DIR m) (os_path_join (STATIC_DIR m) full_path)
  ∧ (∀ served, catch_all m os_path_exists full_path = FileResponse served →
               confined (STATIC_DIR m) served).
Proof.
  intros Hrel Hdots.
  assert (Hfile : confined (STATIC_DIR m) (os_path_join (STATIC_DIR m) full_path)).
  { unfold confined. rewrite resolve_join by done. by apply walk_down. }
  split; [exact Hfile|]. intros served. unfold catch_all.
  destruct (os_path_exists _); intros [= <-]; [exact Hfile|].
  unfold confined. rewrite resolve_join by done. apply walk_down.
  vm_compute. intros H. repeat (apply elem_of_cons in H as [H|H]; [done|]).
  by apply not_elem_of_nil in H.
Qed.

Lemma catch_all_confined_witness :
  startswith_sep "chat.js" = false
  ∧ (".." ∉ components "chat.js")
  ∧ confined (STATIC_DIR mistral) (os_path_join (STATIC_DIR mistral) "chat.js")
  ∧ (∀ served, catch_all mistral sample_exists "chat.js" = FileResponse served →
               confined (STATIC_DIR mistral) served).
Proof.
  assert (H : ".." ∉ components "chat.js").
  { vm_compute. intros H. apply elem_of_cons in H as [H|H]; [done|].
    by apply not_elem_of_nil in H. }
  split; [reflexivity|]. split; [exact H|].
  exact (catch_all_confined mistral sample_exists "chat.js" eq_refl H).
Defined.

(** C6 as stated fails: a '..' component, or an absolute request path,
    makes the catch-all route check and serve a file outside STATIC_DIR. *)
Lemma catch_all_traversal :
  (catch_all mistral sample_exists "../openllm_config.yaml"
     = FileResponse "/app/src/ui/../openllm_config.yaml"
   ∧ ¬ confined (STATIC_DIR mistral) "/app/src/ui/../openllm_config.yaml")
  ∧ (catch_all mistral sample_exists "/etc/passwd" = FileResponse "/etc/passwd"
     ∧ ¬ confined (STATIC_DIR mistral) "/etc/passwd").
Proof.
  split; (split; [vm_compute; reflexivity|]);
    unfold confined; apply (bool_decide_eq_false_1 _); vm_compute; reflexivity.
Qed.

Lemma fastapi_route_static (rest : string) :
  fastapi_route ("/static/" +:+ rest) = None.
Proof. reflexivity. Qed.

(** C9 (as the code has it): on the UI sub-application the root path is
    answered with chat.html of STATIC_DIR; the four paths FastAPI
    registers itself (/openapi.json, /docs, /docs/oauth2-redirect,
    /redoc) are answered by its documentation routes; a path under the
    '/static' mount is answered by the static files application; any
    other path '/' + full_path is answered with the file
    os.path.join(STATIC_DIR, full_path) when that exists and with
    chat.html otherwise. *)
Theorem ui_app_serves m os_path_exists (path : string) :
  (path = "/" →
     ui_app m os_path_exists path
     = FileResponse (os_path_join (STATIC_DIR m) "chat.html"))
  ∧ (∀ response, fastapi_route path = Some response →
       ui_app m os_path_exists path = response)
  ∧ (∀ rest, path = "/static/" +:+ rest →
       ui_app m os_path_exists path = StaticFiles (STATIC_DIR m) rest)
  ∧ (∀ full_path,
       path = "/" +:+ full_path →
       full_path ≠ "" →
       fastapi_route path = None →
       ¬ under_static_mount path →
       ui_app m os_path_exists path
       = if os_path_exists (os_path_join (STATIC_DIR m) full_path)
         then FileResponse (os_path_join (STATIC_DIR m) full_path)
         else FileResponse (os_path_join (STATIC_DIR m) "chat.html")).
Proof.
  split; [by intros ->|]. split; [|split].
  - intros response Hr. unfold ui_app. by rewrite Hr.
  - intros rest ->. unfold ui_app. rewrite fastapi_route_static.
    assert (strip_prefix "/static/" ("/static/" +:+ rest) = Some rest) as ->
      by by apply strip_prefix_spec.
    reflexivity.
  - intros full_path -> Hne Hfast Hmount. unfold ui_app.
    rewrite Hfast, (strip_prefix_static _ Hmount).
    destruct (String.eqb_spec ("/" +:+ full_path) "/") as [[= ?]|_]; [done|].
    reflexivity.
Qed.

Lemma ui_app_serves_witness :
  ui_app mistral sample_exists "/" = FileResponse "/app/src/ui/chat.html"
  ∧ ui_app mistral sample_exists "/docs" = SwaggerUI
  ∧ ui_app mistral sample_exists "/static/chat.js"
    = StaticFiles "/app/src/ui" "chat.js"
  ∧ ui_app mistral sample_exists "/chat.js" = FileResponse "/app/src/ui/chat.js"
  ∧ ui_app mistral sample_exists "/settings" = FileResponse "/app/src/ui/chat.html".
Proof.
  pose proof (ui_app_serves mistral sample_exists "/") as (H1 & _).
  pose proof (ui_app_serves mistral sample_exists "/docs") as (_ & H2 & _).
  pose proof (ui_app_serves mistral sample_exists "/static/chat.js") as (_ & _ & H3 & _).
  pose proof (ui_app_serves mistral sample_exists "/chat.js") as (_ & _ & _ & H4).
  pose proof (ui_app_serves mistral sample_exists "/settings") as (_ & _ & _ & H5).
  split; [exact (H1 eq_refl)|]. split; [exact (H2 SwaggerUI eq_refl)|].
  split; [exact (H3 "chat.js" eq_refl)|]. split.
  - refine (H4 "chat.js" eq_refl _ eq_refl _); [done|].
    intros [rest Hr]. discriminate Hr.
  - refine (H5 "settings" eq_refl _ eq_refl _); [done|].
    intros [rest Hr]. discriminate Hr.
Defined.

(** C9 as stated fails: a path under '/static/' that names no file is
    not answered with the entry document, the mount answers it; and
    '/docs', which names no file either, is answered by FastAPI's
    Swagger UI route. *)
Lemma ui_app_static_no_fallback :
  (sample_exists (os_path_join (STATIC_DIR mistral) "static/missing.js") = false
   ∧ ui_app mistral sample_exists "/static/missing.js"
     = StaticFiles "/app/src/ui" "missing.js"
   ∧ ui_app mistral sample_exists "/static/missing.js"
     ≠ FileResponse (os_path_join (STATIC_DIR mistral) "chat.html"))
  ∧ (sample_exists (os_path_join (STATIC_DIR mistral) "docs") = false
     ∧ ui_app mistral sample_exists "/docs" = SwaggerUI
     ∧ ui_app mistral sample_exists "/docs"
       ≠ FileResponse (os_path_join (STATIC_DIR mistral) "chat.html")).
Proof.
  repeat split;
    first [ vm_compute; reflexivity
          | intros H; vm_compute in H; discriminate H ].
Qed.

(** * Further properties of the service *)

Example import_tiny : import_service "/app/src" tiny_parameters = Some tiny.
Proof. vm_compute. reflexivity. Qed.

(** ** Runs of the endpoints *)

Section Runs.
Variable m : module.
Variable client_create : request → ending stream.
Variable Image : Type.
Variable save_png : Image → ending (list byte).

Local Abbreviation emit :=
  (λ chunk : chunk,
     c ← item0 (choices chunk);
     yield (or_empty (delta_content (choice_delta c)))).

Local Abbreviation handler :=
  (λ e : py_exc, logger_error e ;; yield NOTICE ;; mret tt).

Local Abbreviation relay req :=
  (try_except_Exception
     (completion ← create client_create req; async_for completion emit)
     handler).

Lemma relay_stream_escapes req cs e :
  client_create req = Returned (stream_of cs (StreamRaise e)) →
  Forall has_choice cs →
  isinstance_Exception e = false →
  relay req = Gen (map chunk_text cs) [req] [] (Raised e).
Proof.
  intros Hc Hcs He. unfold try_except_Exception.
  rewrite (relay_try_block client_create req cs _ Hc Hcs). simpl.
  rewrite He, app_nil_r. reflexivity.
Qed.

End Runs.

(** X1: whatever the client does, a run of generate is one of three,
    with [cs] the chunks the client's stream delivers before it ends or
    fails: the stream ends and the run yields the texts of [cs] and
    ends normally; creating the completion or reading the stream fails
    with an Exception and the run yields the texts of [cs], then the
    notice as the last element, logs that one error and ends normally;
    or the failure does not derive from Exception and the run yields
    the texts of [cs], logs nothing and ends with that exception.  In
    each case exactly one request has been sent. *)
Theorem generate_runs m client prompt max_tokens :
  let req := chat_request m [TextBlock prompt] max_tokens in
  let g := generate m client prompt max_tokens in
  ∃ cs, Forall has_choice cs
    ∧ ((client req = Returned (stream_of cs StreamEnd)
        ∧ g = Gen (map chunk_text cs) [req] [] (Returned tt))
       ∨ (∃ e, isinstance_Exception e = true
               ∧ fails_after client req cs e
               ∧ g = Gen (map chunk_text cs ++ [NOTICE]) [req] [e] (Returned tt))
       ∨ (∃ e, isinstance_Exception e = false
               ∧ ((cs = [] ∧ client req = Raised e)
                  ∨ client req = Returned (stream_of cs (StreamRaise e)))
               ∧ g = Gen (map chunk_text cs) [req] [] (Raised e))).
Proof.
  intros req g. subst g. rewrite generate_relay. fold req.
  destruct (client req) as [s|e] eqn:Hc.
  - destruct (stream_shape s) as (cs & Hcs & [->|[[e ->]|(c & rest & Hno & ->)]]);
      exists cs; (split; [done|]).
    + left. split; [done|]. by apply relay_stream_ends.
    + destruct (isinstance_Exception e) eqn:He.
      * right. left. exists e. split; [done|].
        split; [by apply fails_stream|]. by apply relay_stream_raises.
      * right. right. exists e. split; [done|].
        split; [by right|]. by apply relay_stream_escapes.
    + right. left. exists IndexError. split; [done|].
      split; [by apply (fails_choice client req cs c rest)|].
      by apply (relay_stream_no_choice client req cs c rest).
  - exists []. split; [constructor|].
    destruct (isinstance_Exception e) eqn:He.
    + right. left. exists e. split; [done|].
      split; [by apply fails_create|]. by apply relay_create_raises.
    + right. right. exists e. split; [done|].
      split; [by left|]. by apply relay_create_escapes.
Qed.

(** X2: an exception of the stream that does not derive from Exception
    (a cancellation) is not caught: generate, and sights without an
    image, yield the texts read so far, log nothing, emit no notice and
    end with that exception. *)
Theorem cancellation_passes_through m client Image save_png prompt max_tokens cs e :
  client (chat_request m [TextBlock prompt] max_tokens)
    = Returned (stream_of cs (StreamRaise e)) →
  Forall has_choice cs →
  isinstance_Exception e = false →
  generate m client prompt max_tokens
    = Gen (map chunk_text cs) [chat_request m [TextBlock prompt] max_tokens] []
          (Raised e)
  ∧ sights m client Image save_png prompt None max_tokens
    = Gen (map chunk_text cs) [chat_request m [TextBlock prompt] max_tokens] []
          (Raised e).
Proof.
  intros Hc Hcs He. rewrite generate_relay, sights_relay_text.
  split; by apply relay_stream_escapes.
Qed.

Lemma cancellation_passes_through_witness :
  Forall has_choice [text_chunk "p"; text_chunk "o"]
  ∧ isinstance_Exception CancelledError = false
  ∧ generate mistral cancelled_client "ping" 128
    = Gen ["p"; "o"] [chat_request mistral [TextBlock "ping"] 128] []
          (Raised CancelledError).
Proof.
  assert (H : Forall has_choice [text_chunk "p"; text_chunk "o"])
    by (repeat constructor; discriminate).
  split; [exact H|]. split; [reflexivity|].
  exact (proj1 (cancellation_passes_through mistral cancelled_client
                  sample_image sample_save_png "ping" 128
                  [text_chunk "p"; text_chunk "o"] CancelledError
                  eq_refl H eq_refl)).
Defined.

(** X3: an exception deriving from Exception leaves sights exactly when
    writing the supplied image as PNG raised it. *)
Theorem sights_raises_only_from_save m client Image save_png prompt image max_tokens e :
  isinstance_Exception e = true →
  (ending_of (sights m client Image save_png prompt image max_tokens) = Raised e
   ↔ ∃ img, image = Some img ∧ save_png img = Raised e).
Proof.
  intros He. split.
  - destruct image as [img|].
    + destruct (save_png img) as [png|e'] eqn:Hs.
      * rewrite (sights_relay_image _ _ _ _ _ _ png _ Hs).
        intros Hr%relay_raises_no_Exception. congruence.
      * rewrite (sights_save_raises _ _ _ _ _ _ e' _ Hs). simpl.
        intros [= ->]. by exists img.
    + rewrite sights_relay_text. intros Hr%relay_raises_no_Exception. congruence.
  - intros (img & -> & Hs). by rewrite (sights_save_raises _ _ _ _ _ _ e _ Hs).
Qed.

Lemma sights_raises_only_from_save_witness :
  isinstance_Exception OSError = true
  ∧ (ending_of (sights mistral pong_client sample_image sample_save_png
                  "what is this?" (Some (SampleImage "F" [])) 256) = Raised OSError
     ↔ ∃ img, Some (SampleImage "F" []) = Some img
              ∧ sample_save_png img = Raised OSError).
Proof.
  split; [reflexivity|].
  exact (sights_raises_only_from_save mistral pong_client sample_image
           sample_save_png "what is this?" (Some (SampleImage "F" [])) 256
           OSError eq_refl).
Defined.

(** X4: a call of sights without an image is a call of generate: the
    same rejection or the same run, request for request and string for
    string. *)
Theorem sights_without_image_is_generate m client Image save_png
    (prompt : option string) (max_tokens : option Z) :
  api_sights m client Image save_png prompt None max_tokens
  = api_generate m client prompt max_tokens.
Proof.
  unfold api_sights, api_generate. destruct (validate _ _); [|done].
  by rewrite sights_relay_text, generate_relay.
Qed.

Lemma sights_sent_shape m client Image save_png prompt image max_tokens :
  sent (sights m client Image save_png prompt image max_tokens) = []
  ∨ ∃ content,
      sent (sights m client Image save_png prompt image max_tokens)
        = [chat_request m content max_tokens]
      ∧ last content = Some (TextBlock prompt).
Proof.
  destruct image as [img|].
  - destruct (save_png img) as [png|e] eqn:Hs.
    + right. eexists. rewrite (sights_relay_image _ _ _ _ _ _ png _ Hs).
      split; [apply relay_sent|reflexivity].
    + left. by rewrite (sights_save_raises _ _ _ _ _ _ e _ Hs).
  - right. eexists. rewrite sights_relay_text.
    split; [apply relay_sent|reflexivity].
Qed.

(** X5: a call of generate or sights sends at most one request, and a
    request that is sent names the served model, asks for a stream,
    and holds one message, of role user, whose last content block is
    the text of the prompt (the default prompt when none is given). *)
Theorem requests_have_one_user_message m client Image save_png
    (prompt : option string) image (max_tokens : option Z) :
  (length (dispatched (api_generate m client prompt max_tokens)) ≤ 1)%nat
  ∧ (length (dispatched (api_sights m client Image save_png prompt image max_tokens))
     ≤ 1)%nat
  ∧ ∀ r,
      r ∈ dispatched (api_generate m client prompt max_tokens)
      ∨ r ∈ dispatched (api_sights m client Image save_png prompt image max_tokens) →
      req_model r = model_id m
      ∧ req_stream r = true
      ∧ ∃ content, req_messages r = [Message "user" content]
                   ∧ last content = Some (TextBlock (default DEFAULT_PROMPT prompt)).
Proof.
  unfold api_generate, api_sights. destruct (validate _ _); simpl.
  - rewrite generate_sent.
    destruct (sights_sent_shape m client Image save_png
                (default DEFAULT_PROMPT prompt) image
                (default (MAX_TOKENS m) max_tokens)) as [->|(content & -> & Hlast)];
      (split; [simpl; lia|]); (split; [simpl; lia|]);
      intros r [Hr|Hr]; repeat (apply elem_of_cons in Hr as [->|Hr]);
      try (by apply not_elem_of_nil in Hr); simpl; eauto 6.
  - split; [lia|]. split; [lia|]. intros r [Hr|Hr]; by apply not_elem_of_nil in Hr.
Qed.

(** X6: when the engine configuration declares a max_model_len below
    128, no supplied max_tokens is accepted: every call of generate or
    sights that gives max_tokens is rejected. *)
Theorem short_context_rejects_all dirname PARAMETERS m (declared : Z) :
  import_service dirname PARAMETERS = Some m →
  ENGINE_CONFIG m !! "max_model_len" = Some (VInt declared) →
  declared < 128 →
  ∀ client Image save_png prompt image (v : Z),
    api_generate m client prompt (Some v) = Rejected
    ∧ api_sights m client Image save_png prompt image (Some v) = Rejected.
Proof.
  intros (n & Hn & HM & _)%import_service_inv Hd Hlt.
  unfold py_get in Hn. rewrite Hd in Hn. injection Hn as <-.
  intros client Image save_png prompt image v.
  unfold api_generate, api_sights.
  destruct (validate _ _) eqn:Hv; [|done].
  apply validate_in_bounds in Hv. lia.
Qed.

Lemma short_context_rejects_all_witness :
  import_service "/app/src" tiny_parameters = Some tiny
  ∧ ENGINE_CONFIG tiny !! "max_model_len" = Some (VInt 64)
  ∧ 64 < 128
  ∧ ∀ client Image save_png prompt image (v : Z),
      api_generate tiny client prompt (Some v) = Rejected
      ∧ api_sights tiny client Image save_png prompt image (Some v) = Rejected.
Proof.
  assert (H1 : import_service "/app/src" tiny_parameters = Some tiny)
    by (vm_compute; reflexivity).
  assert (H2 : ENGINE_CONFIG tiny !! "max_model_len" = Some (VInt 64))
    by (vm_compute; reflexivity).
  assert (H3 : 64 < 128) by lia.
  split; [exact H1|]. split; [exact H2|]. split; [exact H3|].
  exact (short_context_rejects_all "/app/src" tiny_parameters tiny 64 H1 H2 H3).
Defined.

(** ** Importing the module *)

(** X7: settings without engine_config['model'] (no engine_config at
    all included) cannot be imported: line 61 raises KeyError. *)
Theorem import_needs_model dirname (PARAMETERS : dict) :
  (∀ ec, PARAMETERS !! "engine_config" = Some (VDict ec) → ec !! "model" = None) →
  import_service dirname PARAMETERS = None.
Proof.
  intros Hm. unfold import_service, py_get.
  destruct (PARAMETERS !! "engine_config") as [[| | | | |ec]|] eqn:Hec;
    simpl; try done.
  destruct (py_min _ _); simpl; [|done]. by rewrite (Hm ec eq_refl).
Qed.

Lemma import_needs_model_witness :
  (∀ ec, ({[ "vision" := VBool true ]} : dict) !! "engine_config" = Some (VDict ec) →
         ec !! "model" = None)
  ∧ import_service "/app/src" {[ "vision" := VBool true ]} = None.
Proof.
  assert (H : ∀ ec, ({[ "vision" := VBool true ]} : dict) !! "engine_config"
                    = Some (VDict ec) → ec !! "model" = None)
    by (intros ec Hec; vm_compute in Hec; discriminate Hec).
  split; [exact H|].
  exact (import_needs_model "/app/src" {[ "vision" := VBool true ]} H).
Defined.

(** X8: a max_model_len that is not a number (a string, null, a
    sequence, a mapping) cannot be imported: min on line 23 raises
    TypeError. *)
Theorem import_needs_numeric_max_model_len dirname (PARAMETERS ec : dict) v :
  PARAMETERS !! "engine_config" = Some (VDict ec) →
  ec !! "max_model_len" = Some v →
  as_int v = None →
  import_service dirname PARAMETERS = None.
Proof.
  intros Hec Hv Hint. unfold import_service, py_get, py_min.
  rewrite Hec. simpl. rewrite Hv. simpl. by rewrite Hint.
Qed.

Lemma import_needs_numeric_max_model_len_witness :
  import_service "/app/src"
    {[ "engine_config" :=
         VDict {[ "model" := VStr "mistralai/Mistral-Large-Instruct-2407";
                  "max_model_len" := VStr "8k" ]} ]} = None.
Proof.
  refine (import_needs_numeric_max_model_len "/app/src" _
            {[ "model" := VStr "mistralai/Mistral-Large-Instruct-2407";
               "max_model_len" := VStr "8k" ]} (VStr "8k") _ _ _);
    vm_compute; reflexivity.
Defined.



(** ** The UI sub-application *)

Lemma startswith_sep_inv (path : string) :
  startswith_sep path = true → ∃ rest, path = "/" +:+ rest.
Proof.
  destruct path as [|c rest]; [done|]. simpl.
  intros ->%Ascii.eqb_eq. by exists rest.
Qed.

(** X10: every request path (paths begin with '/') is answered by the UI
    sub-application: one of the four paths FastAPI registers itself by
    its documentation route, a path under the mount by the static files
    application, any other path with a file that exists or else with
    chat.html of STATIC_DIR. *)
Theorem ui_app_always_answers m os_path_exists (path : string) :
  startswith_sep path = true →
  (∃ response, fastapi_route path = Some response
               ∧ ui_app m os_path_exists path = response)
  ∨ (∃ rest, path = "/static/" +:+ rest
             ∧ ui_app m os_path_exists path = StaticFiles (STATIC_DIR m) rest)
  ∨ (∃ served, ui_app m os_path_exists path = FileResponse served
               ∧ (os_path_exists served = true
                  ∨ served = os_path_join (STATIC_DIR m) "chat.html")).
Proof.
  intros [rest Hrest]%startswith_sep_inv. unfold ui_app.
  destruct (fastapi_route path) as [response|] eqn:Hf.
  { left. by exists response. }
  right. destruct (strip_prefix "/static/" path) as [r|] eqn:Hs.
  - left. exists r. split; [by apply strip_prefix_spec|done].
  - right. destruct (String.eqb path "/").
    + eexists. split; [reflexivity|by right].
    + assert (strip_prefix "/" path = Some rest) as -> by by apply strip_prefix_spec.
      unfold catch_all.
      destruct (os_path_exists _) eqn:He; eexists; (split; [reflexivity|]);
        [by left|by right].
Qed.

Lemma ui_app_always_answers_witness :
  startswith_sep "/settings/profile" = true
  ∧ ((∃ response, fastapi_route "/settings/profile" = Some response
                  ∧ ui_app mistral sample_exists "/settings/profile" = response)
     ∨ (∃ rest, "/settings/profile" = "/static/" +:+ rest
                ∧ ui_app mistral sample_exists "/settings/profile"
                  = StaticFiles (STATIC_DIR mistral) rest)
     ∨ (∃ served, ui_app mistral sample_exists "/settings/profile" = FileResponse served
                  ∧ (sample_exists served = true
                     ∨ served = os_path_join (STATIC_DIR mistral) "chat.html"))).
Proof.
  split; [reflexivity|].
  exact (ui_app_always_answers mistral sample_exists "/settings/profile" eq_refl).
Defined.

(** X11: a request whose path after the leading slash is itself absolute
    ('//etc/passwd') is answered with the file of that absolute path,
    whenever it exists: os.path.join drops STATIC_DIR. *)
Theorem ui_app_serves_absolute_path m os_path_exists (full_path : string) :
  startswith_sep full_path = true →
  os_path_exists full_path = true →
  ui_app m os_path_exists ("/" +:+ full_path) = FileResponse full_path.
Proof.
  intros Habs Hex. apply startswith_sep_inv in Habs as Hrest.
  destruct Hrest as [rest ->]. unfold ui_app.
  change (fastapi_route ("/" +:+ "/" +:+ rest)) with (@None ui_response).
  change (strip_prefix "/static/" ("/" +:+ "/" +:+ rest)) with (@None string).
  change (String.eqb ("/" +:+ "/" +:+ rest) "/") with false.
  change (strip_prefix "/" ("/" +:+ "/" +:+ rest)) with (Some ("/" +:+ rest)).
  unfold catch_all, os_path_join. rewrite Habs, Hex. reflexivity.
Qed.

Lemma ui_app_serves_absolute_path_witness :
  startswith_sep "/etc/passwd" = true
  ∧ sample_exists "/etc/passwd" = true
  ∧ ui_app mistral sample_exists "//etc/passwd" = FileResponse "/etc/passwd".
Proof.
  assert (H : sample_exists "/etc/passwd" = true) by (vm_compute; reflexivity).
  split; [reflexivity|]. split; [exact H|].
  exact (ui_app_serves_absolute_path mistral sample_exists "/etc/passwd" eq_refl H).
Defined.

(** ** The OpenAI routes *)

(** X12: whatever the capability flags, the OpenAI application gets the
    route /models for GET and the route /chat/completions for POST,
    and no path is registered twice. *)
Theorem openai_core_routes (m : module) :
  ("/models", show_available_models, [GET]) ∈ openai_api_app m
  ∧ ("/chat/completions", create_chat_completion, [POST]) ∈ openai_api_app m
  ∧ NoDup (map route_path (openai_api_app m)).
Proof.
  rewrite openai_api_app_routes. unfold OPENAI_ENDPOINTS.
  split; [apply list_elem_of_here|].
  split; [apply list_elem_of_further, list_elem_of_here|].
  destruct (truthy _); simpl; apply (bool_decide_unpack _); vm_compute; reflexivity.
Qed.

(** ** The image data URI *)

Lemma b64encode_inj (a b : list byte) : b64encode a = b64encode b → a = b.
Proof.
  intros H. apply (f_equal b64decode) in H.
  rewrite !b64decode_b64encode in H. by injection H.
Qed.

(** X13: the base64 text sights puts in the URL has four characters for
    every three bytes of the PNG, the last group padded: its length is
    4 * ceil(n / 3) for n bytes. *)
Theorem b64encode_length (png : list byte) :
  String.length (b64encode png) = (4 * ((length png + 2) / 3))%nat.
Proof.
  induction png as [|a|a b|a b c png IH] using triple_induction;
    [reflexivity..|].
  cbn [b64encode]. destruct (sextets _ _ _) as [[[s1 s2] s3] s4].
  cbn [String.length length]. rewrite IH.
  replace (S (S (S (length png))) + 2)%nat with (length png + 2 + 1 * 3)%nat by lia.
  rewrite Nat.div_add by lia. lia.
Qed.

(** X14: the data URI determines the PNG bytes: two images are given
    the same URL only when their PNG bytes are the same. *)
Theorem png_data_uri_inj (png1 png2 : list byte) :
  png_data_uri png1 = png_data_uri png2 → png1 = png2.
Proof.
  unfold png_data_uri. intros H. apply b64encode_inj.
  by apply (inj (String.app "data:image/png;base64,")) in H.
Qed.

Lemma png_data_uri_inj_witness :
  png_data_uri (list_byte_of_string "PNG") = png_data_uri [x50; x4e; x47]
  ∧ list_byte_of_string "PNG" = [x50; x4e; x47].
Proof.
  split; [reflexivity|].
  exact (png_data_uri_inj (list_byte_of_string "PNG") [x50; x4e; x47] eq_refl).
Defined.

(** ** The image definition *)

Lemma fold_image_run (cmds : list value) (img : python_image) :
  fold_left image_run cmds img
  = PythonImage (python_version img) (build_steps img ++ map Run cmds).
Proof.
  revert img. induction cmds as [|cmd cmds IH]; intros [ver steps]; simpl.
  - by rewrite app_nil_r.
  - rewrite IH. simpl. by rewrite <- app_assoc.
Qed.

Lemma guarded_image_run (cmds : list value) (img : python_image) :
  (if (0 <? length cmds)%nat then fold_left image_run cmds img else img)
  = PythonImage (python_version img) (build_steps img ++ map Run cmds).
Proof.
  destruct cmds as [|cmd cmds].
  - destruct img. simpl. by rewrite app_nil_r.
  - change (0 <? length (cmd :: cmds))%nat with true. cbv iota.
    apply fold_image_run.
Qed.

(** X15: the image is Python 3.11 with, in this order: one run step per
    'pre' command of the build settings, in their order; the
    requirements file requirements.txt; one python_packages step with
    all of 'requirements' when there are any, and none otherwise; one
    run step per 'post' command, in their order. *)
Theorem IMAGE_steps (PARAMETERS build : dict) (pre reqs post : list value) :
  py_get PARAMETERS "build" (VDict ∅) = VDict build →
  py_get build "pre" (VList []) = VList pre →
  py_get PARAMETERS "requirements" (VList []) = VList reqs →
  py_get build "post" (VList []) = VList post →
  IMAGE PARAMETERS
  = Some (PythonImage "3.11"
            (map Run pre
             ++ [RequirementsFile "requirements.txt"]
             ++ (match reqs with [] => [] | _ => [PythonPackages reqs] end)
             ++ map Run post)).
Proof.
  intros Hb Hpre Hreqs Hpost. unfold IMAGE.
  rewrite Hb. cbn [as_dict mbind option_bind]. cbv zeta.
  rewrite Hpre, Hreqs, Hpost. cbn [as_list mbind option_bind].
  f_equal. rewrite !guarded_image_run.
  unfold image_requirements_file, image_python_packages.
  destruct reqs as [|r reqs].
  - cbn [length Nat.ltb Nat.leb python_version build_steps app].
    by rewrite <- app_assoc.
  - change (0 <? length (r :: reqs))%nat with true.
    cbn [python_version build_steps app].
    by rewrite <- !app_assoc.
Qed.

Lemma IMAGE_steps_witness :
  IMAGE build_parameters
  = Some (PythonImage "3.11"
            [Run (VStr "apt-get update"); Run (VStr "apt-get install -y git");
             RequirementsFile "requirements.txt";
             PythonPackages [VStr "vllm"; VStr "openai"];
             Run (VStr "pip check")]).
Proof.
  refine (IMAGE_steps build_parameters
            {[ "pre" := VList [VStr "apt-get update"; VStr "apt-get install -y git"];
               "post" := VList [VStr "pip check"] ]}
            [VStr "apt-get update"; VStr "apt-get install -y git"]
            [VStr "vllm"; VStr "openai"] [VStr "pip check"] _ _ _ _);
    vm_compute; reflexivity.
Defined.

(** X16: settings with neither 'build' nor 'requirements' give the image
    that is Python 3.11 with the requirements file and nothing else. *)
Theorem IMAGE_without_settings (PARAMETERS : dict) :
  PARAMETERS !! "build" = None →
  PARAMETERS !! "requirements" = None →
  IMAGE PARAMETERS
  = Some (PythonImage "3.11" [RequirementsFile "requirements.txt"]).
Proof.
  intros Hb Hr. unfold IMAGE, py_get. rewrite Hb, Hr. reflexivity.
Qed.

Lemma IMAGE_without_settings_witness :
  IMAGE mistral_parameters
  = Some (PythonImage "3.11" [RequirementsFile "requirements.txt"]).
Proof.
  apply IMAGE_without_settings; vm_compute; reflexivity.
Defined.

(** ** The server arguments *)

Lemma apply_server_config_union (SERVER_CONFIG args : dict) :
  apply_server_config SERVER_CONFIG args = SERVER_CONFIG ∪ args.
Proof.
  unfold apply_server_config.
  apply (map_fold_weak_ind (λ r sc, r = sc ∪ args)).
  - by rewrite (left_id_L ∅ (∪)).
  - intros key v sc r _ ->. unfold setattr. apply insert_union_l.
Qed.

(** X17: every entry of server_config becomes an attribute of args with
    its value, replacing the value set before when the name is one of
    those the service sets itself; every other attribute the service
    sets keeps its value, and none is removed. *)
Theorem server_config_overrides (PARAMETERS sc : dict) model model_id :
  py_get PARAMETERS "server_config" (VDict ∅) = VDict sc →
  ∃ args,
    server_args PARAMETERS model model_id = Some args
    ∧ (∀ key v, sc !! key = Some v → args !! key = Some v)
    ∧ (∀ key, sc !! key = None →
              args !! key = default_args model model_id !! key)
    ∧ (∀ key, is_Some (default_args model model_id !! key) → is_Some (args !! key)).
Proof.
  intros Hsc. unfold server_args. rewrite Hsc. simpl.
  eexists. split; [reflexivity|]. rewrite apply_server_config_union.
  split; [|split].
  - intros key v Hk. by apply lookup_union_Some_l.
  - intros key Hk. by rewrite lookup_union_r.
  - intros key [v Hv]. rewrite lookup_union.
    destruct (sc !! key); rewrite ?Hv; eauto.
Qed.

Lemma server_config_overrides_witness :
  ∃ args,
    server_args build_parameters (VStr "/models/mistral")
      "mistralai/Mistral-Large-Instruct-2407" = Some args
    ∧ args !! "max_log_len" = Some (VInt 50)
    ∧ args !! "enable_lora" = Some (VBool true)
    ∧ args !! "response_role" = Some (VStr "assistant").
Proof.
  destruct (server_config_overrides build_parameters
              {[ "max_log_len" := VInt 50; "enable_lora" := VBool true ]}
              (VStr "/models/mistral") "mistralai/Mistral-Large-Instruct-2407")
    as (args & Hargs & Hover & Hkeep & _); [vm_compute; reflexivity|].
  exists args. split; [exact Hargs|]. split; [|split].
  - apply Hover. vm_compute. reflexivity.
  - apply Hover. vm_compute. reflexivity.
  - rewrite Hkeep; vm_compute; reflexivity.
Defined.

(** ** Reaching the module directory *)

(** X18: for a file name [name], the request path '../' + name makes the
    catch-all route serve, when it exists, the file [name] of the
    directory service.py is in (the parent of STATIC_DIR). *)
Theorem catch_all_reaches_module_dir dirname (PARAMETERS : dict) m
    os_path_exists (name : string) :
  import_service dirname PARAMETERS = Some m →
  components name = [name] →
  name ≠ "" → name ≠ "." → name ≠ ".." →
  os_path_exists (os_path_join (STATIC_DIR m) ("../" +:+ name)) = true →
  ∃ served, catch_all m os_path_exists ("../" +:+ name) = FileResponse served
            ∧ resolve served = name :: resolve dirname.
Proof.
  intros (n & _ & _ & HS & _)%import_service_inv Hname H0 H1 H2 Hex.
  unfold catch_all. rewrite Hex. eexists. split; [reflexivity|].
  rewrite resolve_join by reflexivity. rewrite HS.
  rewrite resolve_join by reflexivity.
  change ("../" +:+ name) with (".." +:+ String sep name).
  rewrite components_append_sep, Hname. simpl. unfold walk at 1. simpl.
  unfold walk.
  destruct (String.eqb_spec name ""); [done|].
  destruct (String.eqb_spec name "."); [done|].
  destruct (String.eqb_spec name ".."); [done|]. reflexivity.
Qed.

Lemma catch_all_reaches_module_dir_witness :
  ∃ served, catch_all mistral sample_exists "../openllm_config.yaml"
            = FileResponse served
            ∧ resolve served = "openllm_config.yaml" :: resolve "/app/src".
Proof.
  refine (catch_all_reaches_module_dir "/app/src" mistral_parameters mistral
            sample_exists "openllm_config.yaml" _ _ _ _ _ _);
    first [ discriminate | vm_compute; reflexivity ].
Defined.
